(** * ai-passive-income-toolkit: reply parsing and the external-call boundary

    A shallow embedding of [content-generation/ai_content_generator.py]
    (class [AIContentGenerator]) and [feedback_analysis/feedback_analyzer.py]
    (class [FeedbackAnalyzer]), followed by the properties of the parsing
    layer and of the try/except boundary around the chat-completion call.

    Conventions of the embedding.
    - A Python [str] is a [string]; a character is a code point below 256.
    - A Python [dict] is an insertion-ordered association list ([PyDict]).
    - An exception is its class name and its text; the class is a built-in
      one or one derived from [Exception], so that the name tells whether
      [except Exception] catches it.
    - [openai.ChatCompletion.create] and [datetime.now().isoformat()] are the
      two effects of the program.  Both live in a [World]: the service
      answers a request (knowing the earlier ones) with a reply text or by
      raising, and the clock is read one tick at a time.
    - [int(word_count * 1.5)] is computed over the rationals; this is the
      value of the binary64 computation whenever the product is exact
      ([exact_range]).  The properties of [generate_blog_post] are stated
      for target word counts in that range; beyond it the product is
      rounded, and an [int] too large for a float makes the conversion
      itself raise inside the [try] block. *)

From Stdlib Require Import String Ascii List ZArith QArith Qround Lia Bool Arith.
From Stdlib Require Import Numbers.DecimalString.
From Stdlib Require Import Sorting.Sorted.
Import ListNotations.

Close Scope Q_scope.
Open Scope nat_scope.
Open Scope list_scope.
Open Scope string_scope.

(** ** Python string primitives *)

Module PyStr.

(** The line feed, written ['\n'] in the source. *)
Definition NL : string := String "010"%char EmptyString.

(** The double-quote character of the sentiment prompt. *)
Definition DQUOTE : string := String "034"%char EmptyString.

(** [str.isspace] on one character: TAB..CR, FS..US, space, NEL, NBSP. *)
Definition isspace (c : ascii) : bool :=
  let n := nat_of_ascii c in
  (Nat.leb 9 n && Nat.leb n 13) || (Nat.leb 28 n && Nat.leb n 32)
  || Nat.eqb n 133 || Nat.eqb n 160.

(** Truth value of a string: non-empty. *)
Definition truthy (s : string) : bool :=
  match s with
  | EmptyString => false
  | String _ _ => true
  end.

Fixpoint lstrip (s : string) : string :=
  match s with
  | EmptyString => EmptyString
  | String c s' => if isspace c then lstrip s' else s
  end.

Fixpoint rstrip (s : string) : string :=
  match s with
  | EmptyString => EmptyString
  | String c s' =>
      match rstrip s' with
      | EmptyString => if isspace c then EmptyString else String c EmptyString
      | r => String c r
      end
  end.

(** [s.strip()] *)
Definition strip (s : string) : string := rstrip (lstrip s).

(** [s.startswith(p)] *)
Definition startswith (s p : string) : bool := String.prefix p s.

(** [sub in s] *)
Fixpoint contains (sub s : string) : bool :=
  String.prefix sub s
  || match s with
     | EmptyString => false
     | String _ s' => contains sub s'
     end.

(** [s.split(sep)] for a non-empty [sep]: the leftmost occurrence of
    [sep] ends the current piece and scanning resumes after it.  [skip]
    counts the characters of a matched separator still to be passed. *)
Fixpoint split_from (sep : string) (skip : nat) (s : string) : list string :=
  match s with
  | EmptyString => [EmptyString]
  | String c s' =>
      match skip with
      | S k => split_from sep k s'
      | O =>
          if String.prefix sep s
          then EmptyString :: split_from sep (String.length sep - 1) s'
          else match split_from sep 0 s' with
               | piece :: pieces => String c piece :: pieces
               | [] => [String c EmptyString]
               end
      end
  end.

Definition split (s sep : string) : list string := split_from sep 0 s.

(** [s.replace(old, new)] for a non-empty [old]: every non-overlapping
    occurrence of [old], found left to right, is replaced. *)
Fixpoint replace_from (old new : string) (skip : nat) (s : string) : string :=
  match s with
  | EmptyString => EmptyString
  | String c s' =>
      match skip with
      | S k => replace_from old new k s'
      | O =>
          if String.prefix old s
          then new ++ replace_from old new (String.length old - 1) s'
          else String c (replace_from old new 0 s')
      end
  end.

Definition replace (s old new : string) : string := replace_from old new 0 s.

(** [s.split()] without argument: the maximal runs of non-whitespace
    characters.  [word] holds the characters of the run being read. *)
Definition flush (word : string) : list string :=
  if truthy word then [word] else [].

Fixpoint split_ws_from (word : string) (s : string) : list string :=
  match s with
  | EmptyString => flush word
  | String c s' =>
      if isspace c
      then flush word ++ split_ws_from EmptyString s'
      else split_ws_from (word ++ String c EmptyString) s'
  end.

Definition split_ws (s : string) : list string := split_ws_from EmptyString s.

(** [sep.join(pieces)] *)
Definition join (sep : string) (pieces : list string) : string :=
  String.concat sep pieces.

(** [str(n)] for an [int]. *)
Definition str_of_int (n : Z) : string := NilZero.string_of_int (Z.to_int n).

End PyStr.

(** ** Python values and dictionaries *)

#[local] Set Warnings "-register-all".

Inductive PyValue : Type :=
| VStr (s : string)
| VInt (n : Z)
| VList (items : list PyValue)
| VDict (entries : list (string * PyValue)).

(** A [dict] with string keys, in insertion order. *)
Module PyDict.

Definition t : Type := list (string * PyValue).

(** [d.get(key)] *)
Fixpoint get (d : t) (key : string) : option PyValue :=
  match d with
  | [] => None
  | (k, v) :: d' => if String.eqb k key then Some v else get d' key
  end.

(** [key in d] *)
Definition has (d : t) (key : string) : bool :=
  match get d key with
  | Some _ => true
  | None => false
  end.

(** [d[key] = v]: overwrite in place, or append a new key. *)
Fixpoint set (d : t) (key : string) (v : PyValue) : t :=
  match d with
  | [] => [(key, v)]
  | (k, x) :: d' =>
      if String.eqb k key then (k, v) :: d' else (k, x) :: set d' key v
  end.

End PyDict.

(** ** The two effects: the chat-completion service and the clock *)

(** An exception object; [exc_message] is what [str(e)] gives. *)
Record PyException : Type := mkException {
  exc_class : string;
  exc_message : string
}.

(** The built-in classes that derive from [BaseException] without deriving
    from [Exception]. *)
Definition outside_Exception : list string :=
  [ "BaseException"; "SystemExit"; "KeyboardInterrupt"; "GeneratorExit";
    "BaseExceptionGroup" ].

(** [isinstance(e, Exception)] *)
Definition isinstance_Exception (e : PyException) : bool :=
  negb (existsb (String.eqb (exc_class e)) outside_Exception).

Record ChatMessage : Type := mkMessage {
  role : string;
  content : string
}.

(** The keyword arguments of [openai.ChatCompletion.create]. *)
Record ChatRequest : Type := mkRequest {
  model : string;
  messages : list ChatMessage;
  max_tokens : Z;
  temperature : Q
}.

(** What one call of the service does: it hands back
    [response.choices[0].message.content], or it raises. *)
Inductive Outcome : Type :=
| Reply (text : string)
| Failure (e : PyException).

(** The requests sent so far (oldest first) and the number of clock reads. *)
Record World : Type := mkWorld {
  sent : list ChatRequest;
  ticks : nat
}.

Inductive Result (A : Type) : Type :=
| Returned (a : A)
| Raised (e : PyException).

Arguments Returned {A} a.
Arguments Raised {A} e.

(** Computations that read and change the world and may raise. *)
Definition M (A : Type) : Type := World -> Result A * World.

Definition ret {A : Type} (a : A) : M A := fun w => (Returned a, w).

Definition bind {A B : Type} (m : M A) (k : A -> M B) : M B :=
  fun w =>
    match m w with
    | (Returned a, w') => k a w'
    | (Raised e, w') => (Raised e, w')
    end.

(** [try: body  except Exception as e: handler(e)]; what [body] did to the
    world before raising stays done, and an exception that is not an
    [Exception] goes on to the caller. *)
Definition try_except {A : Type} (body : M A) (handler : PyException -> M A) : M A :=
  fun w =>
    match body w with
    | (Returned a, w') => (Returned a, w')
    | (Raised e, w') =>
        if isinstance_Exception e then handler e w' else (Raised e, w')
    end.

Declare Scope py_scope.
Delimit Scope py_scope with py.
Notation "x <- m ;; k" := (bind m (fun x => k))
  (at level 61, m at next level, right associativity) : py_scope.
Open Scope py_scope.

Section Effects.

(** The service's answer to a request, given the requests before it. *)
Variable service : list ChatRequest -> ChatRequest -> Outcome.

(** The text of [datetime.now().isoformat()] at the n-th read. *)
Variable clock : nat -> string.

Definition create (req : ChatRequest) : M string :=
  fun w =>
    let w' := mkWorld (sent w ++ [req]) (ticks w) in
    match service (sent w) req with
    | Reply text => (Returned text, w')
    | Failure e => (Raised e, w')
    end.

Definition now_isoformat : M string :=
  fun w => (Returned (clock (ticks w)), mkWorld (sent w) (S (ticks w))).

End Effects.

(** [int(x)] of a float: truncation toward zero. *)
Definition py_int (x : Q) : Z := Z.quot (Qnum x) (Z.pos (Qden x)).

(** The integers whose product with 1.5 is exact in binary64. *)
Definition exact_range (n : Z) : Prop := (Z.abs n < 2 ^ 51)%Z.

(** Rounding as the specification words it, [round(x)]: to the nearest
    integer, a tie going to the even neighbour. *)
Definition spec_round (x : Q) : Z :=
  let f := Qfloor x in
  match Qcompare (x - inject_Z f) (1 # 2) with
  | Lt => f
  | Gt => (f + 1)%Z
  | Eq => if Z.even f then f else (f + 1)%Z
  end.

(** Rounding to the nearest integer with a tie going up, the other common
    reading of the specification's [round]. *)
Definition spec_round_half_up (x : Q) : Z := Qfloor (x + (1 # 2)).

(** ** content-generation/ai_content_generator.py *)

Module AIContentGenerator.

Import PyStr.

(** Eight spaces: the indentation the triple-quoted prompts carry. *)
Definition IND : string := "        ".

(** The f-string [prompt] of [generate_blog_post]. *)
Definition blog_prompt (topic target_audience : string) (word_count : Z) : string :=
  join NL
    [ "";
      IND ++ "Write a comprehensive blog post about '" ++ topic ++ "' for "
          ++ target_audience ++ ".";
      IND;
      IND ++ "Requirements:";
      IND ++ "- Approximately " ++ str_of_int word_count ++ " words";
      IND ++ "- Include an engaging title";
      IND ++ "- Structure with clear headings and subheadings";
      IND ++ "- Include practical tips or actionable advice";
      IND ++ "- End with a conclusion that encourages engagement";
      IND ++ "- Use a conversational but professional tone";
      IND;
      IND ++ "Format the response as:";
      IND ++ "TITLE: [Blog post title]";
      IND;
      IND ++ "CONTENT:";
      IND ++ "[Full blog post content with proper formatting]";
      IND;
      IND ++ "TAGS: [5 relevant tags separated by commas]";
      IND ].

(** [estimated_tokens = int(word_count * 1.5)], for a [word_count] in
    [exact_range], where the float product is the exact one. *)
Definition estimated_tokens (word_count : Z) : Z :=
  py_int (inject_Z word_count * 1.5)%Q.

(** The keyword arguments [generate_blog_post] passes to the service. *)
Definition blog_request (topic target_audience : string) (word_count : Z) : ChatRequest :=
  {| model := "gpt-3.5-turbo";
     messages :=
       [ mkMessage "system"
           "You are an expert content writer specializing in engaging, SEO-friendly blog posts.";
         mkMessage "user" (blog_prompt topic target_audience word_count) ];
     max_tokens := estimated_tokens word_count;
     temperature := 0.7%Q |}.

(** The four variables of the parsing loop. *)
Record BlogVars : Type := mkBlogVars {
  title : string;
  body : string;
  tags : string;
  current_section : string
}.

Definition blog_init : BlogVars := mkBlogVars "" "" "" "".

(** One iteration of [for line in lines]. *)
Definition blog_line (v : BlogVars) (line : string) : BlogVars :=
  if startswith line "TITLE:" then
    mkBlogVars (strip (replace line "TITLE:" "")) (body v) (tags v) "title"
  else if startswith line "CONTENT:" then
    mkBlogVars (title v) (body v) (tags v) "content"
  else if startswith line "TAGS:" then
    mkBlogVars (title v) (body v) (strip (replace line "TAGS:" "")) "tags"
  else if String.eqb (current_section v) "content" && truthy (strip line) then
    mkBlogVars (title v) (body v ++ line ++ NL) (tags v) (current_section v)
  else v.

(** The whole loop, from the reply text. *)
Definition blog_parse (reply : string) : BlogVars :=
  fold_left blog_line (split reply NL) blog_init.

(** [[tag.strip() for tag in tags.split(",") if tag.strip()]] *)
Definition tag_list (tags : string) : list string :=
  map strip (filter (fun tag => truthy (strip tag)) (split tags ",")).

(** [len(full_content.split())] with [full_content = title + "\n" + body] *)
Definition word_count_of (v : BlogVars) : nat :=
  let full_content := title v ++ NL ++ body v in
  List.length (split_ws full_content).

(** The dictionary returned on the success path. *)
Definition blog_record (topic target_audience : string) (v : BlogVars)
    (generated_at : string) : PyDict.t :=
  [ ("title", VStr (title v));
    ("content", VStr (strip (body v)));
    ("tags", VList (map VStr (tag_list (tags v))));
    ("topic", VStr topic);
    ("target_audience", VStr target_audience);
    ("word_count", VInt (Z.of_nat (word_count_of v)));
    ("generated_at", VStr generated_at);
    ("status", VStr "success") ].

(** The dictionary both operations return from their [except] clause. *)
Definition error_record (e : PyException) (generated_at : string) : PyDict.t :=
  [ ("status", VStr "error");
    ("error", VStr (exc_message e));
    ("generated_at", VStr generated_at) ].

(** The f-string [prompt] of [generate_content_calendar]. *)
Definition calendar_prompt (niche : string) (num_posts : Z) : string :=
  join NL
    [ "";
      IND ++ "Create " ++ str_of_int num_posts ++ " blog post ideas for the "
          ++ niche ++ " niche.";
      IND;
      IND ++ "For each idea, provide:";
      IND ++ "1. A compelling title";
      IND ++ "2. A brief description (2-3 sentences)";
      IND ++ "3. Target audience";
      IND ++ "4. Estimated difficulty level (Beginner/Intermediate/Advanced)";
      IND;
      IND ++ "Format each idea as:";
      IND ++ "IDEA [number]:";
      IND ++ "Title: [title]";
      IND ++ "Description: [description]";
      IND ++ "Audience: [target audience]";
      IND ++ "Level: [difficulty level]";
      IND ++ "---";
      IND ].

Definition calendar_request (niche : string) (num_posts : Z) : ChatRequest :=
  {| model := "gpt-3.5-turbo";
     messages :=
       [ mkMessage "system"
           "You are a content strategist specializing in creating engaging content calendars.";
         mkMessage "user" (calendar_prompt niche num_posts) ];
     max_tokens := 2000;
     temperature := 0.8%Q |}.

(** One iteration of the inner [for line in lines] on the [idea] dict. *)
Definition idea_line (idea : PyDict.t) (line : string) : PyDict.t :=
  if startswith line "Title:" then
    PyDict.set idea "title" (VStr (strip (replace line "Title:" "")))
  else if startswith line "Description:" then
    PyDict.set idea "description" (VStr (strip (replace line "Description:" "")))
  else if startswith line "Audience:" then
    PyDict.set idea "audience" (VStr (strip (replace line "Audience:" "")))
  else if startswith line "Level:" then
    PyDict.set idea "level" (VStr (strip (replace line "Level:" "")))
  else idea.

(** The test guarding the body of [for section in sections]. *)
Definition is_candidate (section : string) : bool :=
  contains "IDEA" section && contains "Title:" section.

(** The [idea] dict after the inner loop, for a section stamped [generated_at]. *)
Definition idea_of_section (generated_at section : string) : PyDict.t :=
  let lines := split (strip section) NL in
  fold_left idea_line lines [("generated_at", VStr generated_at)].

Section WithEffects.

Variable service : list ChatRequest -> ChatRequest -> Outcome.
Variable clock : nat -> string.

Definition generate_blog_post (topic target_audience : string) (word_count : Z)
    : M PyDict.t :=
  try_except
    (response <- create service (blog_request topic target_audience word_count) ;;
     let v := blog_parse response in
     generated_at <- now_isoformat clock ;;
     ret (blog_record topic target_audience v generated_at))
    (fun e =>
       generated_at <- now_isoformat clock ;;
       ret (error_record e generated_at)).

(** [for section in sections], with [ideas] the list built so far. *)
Fixpoint calendar_loop (sections : list string) (ideas : list PyDict.t)
    : M (list PyDict.t) :=
  match sections with
  | [] => ret ideas
  | section :: rest =>
      if is_candidate section then
        generated_at <- now_isoformat clock ;;
        let idea := idea_of_section generated_at section in
        if PyDict.has idea "title"
        then calendar_loop rest (ideas ++ [idea])
        else calendar_loop rest ideas
      else calendar_loop rest ideas
  end.

Definition generate_content_calendar (niche : string) (num_posts : Z)
    : M PyDict.t :=
  try_except
    (response <- create service (calendar_request niche num_posts) ;;
     let sections := split response "---" in
     ideas <- calendar_loop sections [] ;;
     generated_at <- now_isoformat clock ;;
     ret [ ("niche", VStr niche);
           ("total_ideas", VInt (Z.of_nat (List.length ideas)));
           ("ideas", VList (map VDict ideas));
           ("generated_at", VStr generated_at);
           ("status", VStr "success") ])
    (fun e =>
       generated_at <- now_isoformat clock ;;
       ret (error_record e generated_at)).

End WithEffects.

End AIContentGenerator.

(** ** feedback_analysis/feedback_analyzer.py *)

Module FeedbackAnalyzer.

Import PyStr.

Definition sentiment_request (text : string) : ChatRequest :=
  {| model := "gpt-3.5-turbo";
     messages :=
       [ mkMessage "system" "You are a sentiment analysis expert.";
         mkMessage "user"
           ("Analyze the sentiment of the following text and return one of the following: Positive, Negative, or Neutral."
            ++ NL ++ NL ++ "Text: " ++ DQUOTE ++ text ++ DQUOTE) ];
     max_tokens := 10;
     temperature := 0%Q |}.

Definition themes_request (feedback_list : list string) : ChatRequest :=
  {| model := "gpt-3.5-turbo";
     messages :=
       [ mkMessage "system" "You are an expert in text analysis and theme identification.";
         mkMessage "user"
           ("Identify the key themes from the following list of user feedback. Group similar feedback together and provide a summary of the main topics."
            ++ NL ++ NL ++ "Feedback:" ++ NL ++ "- "
            ++ join (NL ++ "- ") feedback_list) ];
     max_tokens := 500;
     temperature := 0.5%Q |}.

Section WithEffects.

Variable service : list ChatRequest -> ChatRequest -> Outcome.

Definition analyze_sentiment (text : string) : M string :=
  try_except
    (response <- create service (sentiment_request text) ;;
     ret (strip response))
    (fun e => ret ("Error: " ++ exc_message e)).

Definition identify_key_themes (feedback_list : list string) : M string :=
  try_except
    (response <- create service (themes_request feedback_list) ;;
     ret (strip response))
    (fun e => ret ("Error: " ++ exc_message e)).

End WithEffects.

End FeedbackAnalyzer.

(** ** Vocabulary of the specification and sample data *)

Import PyStr.
Import AIContentGenerator.
Import FeedbackAnalyzer.

(** Every character is whitespace. *)
Fixpoint all_space (s : string) : bool :=
  match s with
  | EmptyString => true
  | String c s' => isspace c && all_space s'
  end.

(** The string neither begins nor ends with whitespace. *)
Fixpoint ends_clean (s : string) : bool :=
  match s with
  | EmptyString => true
  | String c EmptyString => negb (isspace c)
  | String _ s' => ends_clean s'
  end.

Definition begins_clean (s : string) : bool :=
  match s with
  | EmptyString => true
  | String c _ => negb (isspace c)
  end.

Definition trimmed (s : string) : bool := begins_clean s && ends_clean s.

(** The number of whitespace-delimited tokens of a string. *)
Definition tokens (s : string) : nat := List.length (split_ws s).

(** A world in which nothing has happened yet. *)
Definition fresh : World := mkWorld [] 0.

(** A service that always answers with the same text, and one that
    always raises. *)
Definition replying (text : string) : list ChatRequest -> ChatRequest -> Outcome :=
  fun _ _ => Reply text.

Definition failing (message : string) : list ChatRequest -> ChatRequest -> Outcome :=
  fun _ _ => Failure (mkException "Exception" message).

(** A service during whose call the user interrupts the program. *)
Definition interrupted (message : string) : list ChatRequest -> ChatRequest -> Outcome :=
  fun _ _ => Failure (mkException "KeyboardInterrupt" message).

(** Whatever the service raises is an [Exception]. *)
Definition raises_only_Exception
    (service : list ChatRequest -> ChatRequest -> Outcome) : Prop :=
  forall history req e,
    service history req = Failure e -> isinstance_Exception e = true.

(** A clock whose n-th reading is the text of n. *)
Definition counting_clock (n : nat) : string := "t" ++ str_of_int (Z.of_nat n).

(** The reply of the repository's word-count test. *)
Definition sample_reply : string :=
  "TITLE: Test Title" ++ NL ++ "CONTENT:" ++ NL
  ++ "This is the body of the test blog post." ++ NL
  ++ "TAGS: test, blog, post".

(** Replies of the analyzer's tests; the first is padded with whitespace. *)
Definition sentiment_reply : string := " Positive" ++ NL.

Definition themes_reply : string :=
  "Key Themes:" ++ NL ++ "- Login Issues" ++ NL ++ "- Billing Problems".

(** [s[n:]] *)
Fixpoint drop (n : nat) (s : string) : string :=
  match n, s with
  | O, _ => s
  | S k, String _ s' => drop k s'
  | S _, EmptyString => EmptyString
  end.

(** Everything after the marker, in the specification's words: the line
    without its first [len(marker)] characters. *)
Definition after_marker (marker line : string) : string :=
  drop (String.length marker) line.

(** The tag list in the specification's words: split on commas, trim each
    piece, drop the pieces that are empty after trimming. *)
Definition spec_tags (raw : string) : list string :=
  filter truthy (map strip (split raw ",")).

(** A line from which the calendar parser extracts a title. *)
Definition title_line (line : string) : bool := startswith line "Title:".

(** A segment that contributes an idea, in the specification's words: it
    contains [IDEA], it contains [Title:], and a title is extracted from
    one of its lines. *)
Definition contributes (section : string) : bool :=
  contains "IDEA" section && contains "Title:" section
  && existsb title_line (split (strip section) NL).

(** What the calendar operation returns for [calendar_reply]. *)
Definition calendar_sample : PyDict.t :=
  [ ("niche", VStr "Test Niche");
    ("total_ideas", VInt 1);
    ("ideas",
     VList [ VDict [ ("generated_at", VStr "t0");
                     ("title", VStr "Getting Started with AI Tools");
                     ("description", VStr "Learn the basics.");
                     ("audience", VStr "Business professionals");
                     ("level", VStr "Beginner") ] ]);
    ("generated_at", VStr "t2");
    ("status", VStr "success") ].

(** An idea record that is the parse of a segment and has its title. *)
Definition idea_parsed_from (idea : PyDict.t) (section : string) : Prop :=
  exists generated_at,
    idea = idea_of_section generated_at section
    /\ PyDict.has idea "title" = true.

(** A blog reply whose title line repeats the marker, and a calendar reply
    whose title line does. *)
Definition recurring_title_reply : string := "TITLE: Notes on the TITLE: tag".

Definition recurring_calendar_reply : string :=
  "IDEA 1:" ++ NL ++ "Title: Why the Title: line matters" ++ NL ++ "---".

(** A blog reply with two title lines, two tag lines and two content
    sections. *)
Definition repeated_reply : string :=
  "TITLE: First" ++ NL ++ "CONTENT:" ++ NL ++ "alpha" ++ NL
  ++ "TAGS: one" ++ NL ++ "ignored" ++ NL
  ++ "TITLE: Second" ++ NL ++ "CONTENT:" ++ NL ++ "beta" ++ NL
  ++ "TAGS: two, three".

(** A calendar reply of two segments and a trailing empty one; the second
    segment mentions [Title:] only on an indented line. *)
Definition calendar_reply : string :=
  "IDEA 1:" ++ NL ++ "Title: Getting Started with AI Tools" ++ NL
  ++ "Description: Learn the basics." ++ NL
  ++ "Audience: Business professionals" ++ NL ++ "Level: Beginner" ++ NL
  ++ "---" ++ NL
  ++ "IDEA 2:" ++ NL ++ "  Title: indented" ++ NL ++ "Level: Advanced" ++ NL
  ++ "---".

(** ** Vocabulary for the rest of the parsing layer *)

(** The strings of a list, one after the other. *)
Definition flatten (pieces : list string) : string :=
  fold_right String.append "" pieces.

(** The lines the blog loop appends to [body]: the non-blank lines without
    marker that are read while the last marker line seen is a [CONTENT:]
    one.  [in_content] tells whether that is so when the first line is read. *)
Fixpoint content_lines (in_content : bool) (lines : list string) : list string :=
  match lines with
  | [] => []
  | line :: rest =>
      if startswith line "TITLE:" then content_lines false rest
      else if startswith line "CONTENT:" then content_lines true rest
      else if startswith line "TAGS:" then content_lines false rest
      else if in_content && truthy (strip line)
           then line :: content_lines in_content rest
           else content_lines in_content rest
  end.

(** The character occurs in the string. *)
Fixpoint mentions (c : ascii) (s : string) : bool :=
  match s with
  | EmptyString => false
  | String d s' => Ascii.eqb c d || mentions c s'
  end.

(** The comma of the tags line. *)
Definition COMMA : ascii := ","%char.

(** A tag as the blog record holds them: not empty, no whitespace at
    either end, no comma. *)
Definition clean_tag (tag : string) : bool :=
  truthy tag && trimmed tag && negb (mentions COMMA tag).

(** The clock reads the calendar loop hands to the ideas it keeps: each
    candidate segment costs one read, kept or not, counted from [tick]. *)
Fixpoint stamps (tick : nat) (sections : list string) : list nat :=
  match sections with
  | [] => []
  | section :: rest =>
      if is_candidate section
      then (if existsb title_line (split (strip section) NL) then [tick] else [])
           ++ stamps (S tick) rest
      else stamps tick rest
  end.

(** The four keys the calendar loop fills, each with its line prefix. *)
Definition idea_fields : list (string * string) :=
  [ ("title", "Title:"); ("description", "Description:");
    ("audience", "Audience:"); ("level", "Level:") ].

(** ** Construction and the test double *)

(** [a or b] between a value that is [None] or a string and another such
    value: [a] when it is a non-empty string, [b] otherwise. *)
Definition py_or (a b : option string) : option string :=
  match a with
  | Some s => if truthy s then a else b
  | None => b
  end.

(** Truth value of a value that is [None] or a string. *)
Definition truthy_opt (a : option string) : bool :=
  match a with
  | Some s => truthy s
  | None => false
  end.

(** What the constructors read and write outside the object: the
    environment variables and the module attribute [openai.api_key]. *)
Record Process : Type := mkProcess {
  environ : list (string * string);
  openai_api_key : option string
}.

(** [os.getenv(name)] *)
Fixpoint getenv (vars : list (string * string)) (name : string) : option string :=
  match vars with
  | [] => None
  | (k, v) :: vars' => if String.eqb k name then Some v else getenv vars' name
  end.

(** [AIContentGenerator.__init__(self, api_key)]: the [self.api_key] it
    sets, and the process afterwards. *)
Definition generator_init (api_key : option string) (p : Process)
    : option string * Process :=
  let self_api_key := py_or api_key (getenv (environ p) "OPENAI_API_KEY") in
  if truthy_opt self_api_key
  then (self_api_key, mkProcess (environ p) self_api_key)
  else (self_api_key, p).

(** [FeedbackAnalyzer.__init__(self, api_key)], the same text. *)
Definition analyzer_init (api_key : option string) (p : Process)
    : option string * Process :=
  let self_api_key := py_or api_key (getenv (environ p) "OPENAI_API_KEY") in
  if truthy_opt self_api_key
  then (self_api_key, mkProcess (environ p) self_api_key)
  else (self_api_key, p).

(** [tests/mock_openai.py]: [ChatCompletion.create] raises whatever it is
    given. *)
Definition mock_create : list ChatRequest -> ChatRequest -> Outcome :=
  fun _ _ =>
    Failure (mkException "NotImplementedError" "OpenAI API should be mocked in tests").

(** A calendar reply of three segments: the first and the third give an
    idea, the second has no title line. *)
Definition two_ideas_reply : string :=
  "IDEA 1:" ++ NL ++ "Title: First" ++ NL ++ "---" ++ NL
  ++ "IDEA 2:" ++ NL ++ "No Title: here" ++ NL ++ "---" ++ NL
  ++ "IDEA 3:" ++ NL ++ "Title: Third".

(** A segment without description or audience and with two level lines. *)
Definition partial_section : string :=
  NL ++ "IDEA 3:" ++ NL ++ "Title: Third" ++ NL ++ "Level: Beginner" ++ NL
  ++ "Level: Advanced" ++ NL.

(** The two replies the repository's generator tests feed in. *)
Definition fixture_blog_reply : string :=
  join NL
    [ "TITLE: 10 Proven Passive Income Strategies";
      "";
      "CONTENT:";
      "In today's digital age, creating passive income streams has become more accessible than ever.";
      "";
      "## Understanding Passive Income";
      "Passive income is money earned with minimal active effort.";
      "";
      "## Top Strategies";
      "1. Dividend investing";
      "2. Real estate";
      "3. Digital products";
      "";
      "## Conclusion";
      "Start small and grow your passive income over time.";
      "";
      "TAGS: passive income, investing, entrepreneurship, financial freedom, side hustle" ].

Definition fixture_calendar_reply : string :=
  join NL
    [ "IDEA 1:";
      "Title: Getting Started with AI Tools";
      "Description: Learn how to leverage AI tools for productivity. This guide covers the basics.";
      "Audience: Business professionals";
      "Level: Beginner";
      "---";
      "IDEA 2:";
      "Title: Advanced Machine Learning Techniques";
      "Description: Deep dive into ML algorithms. Explore neural networks and optimization.";
      "Audience: Data scientists";
      "Level: Advanced";
      "---" ].

(** ** The demo of feedback_analysis/feedback_analyzer.py *)

Module FeedbackDemo.

(** [feedback_data] *)
Definition feedback_data : list string :=
  [ "The app is amazing! So easy to use and very intuitive.";
    "I'm having trouble with the login. It keeps crashing on my device.";
    "The new update is a bit confusing. I can't find the settings menu anymore.";
    "Billing is incorrect. I was charged twice for my subscription.";
    "Love the new features, especially the dark mode. Keep up the great work!";
    "Customer support was very helpful and resolved my issue quickly." ].

Section WithEffects.

Variable service : list ChatRequest -> ChatRequest -> Outcome.

(** [for feedback in data: ...], with [printed] the arguments of the
    calls of [print] so far. *)
Fixpoint sentiment_loop (data : list string) (printed : list string)
    : M (list string) :=
  match data with
  | [] => ret printed
  | feedback :: rest =>
      sentiment <- analyze_sentiment service feedback ;;
      let line := "'" ++ feedback ++ "' -> Sentiment: " ++ sentiment in
      sentiment_loop rest (app printed [line])
  end.

(** The body under [if __name__ == '__main__'], for a list of feedback
    entries; it gives back what it printed. *)
Definition demo (data : list string) : M (list string) :=
  printed <- sentiment_loop data ["--- Sentiment Analysis ---"] ;;
  themes <- identify_key_themes service data ;;
  let heading := NL ++ "--- Key Theme Identification ---" in
  ret (app printed [heading; themes]).

Definition main : M (list string) := demo feedback_data.

End WithEffects.

End FeedbackDemo.

(** Case analysis on the character tests of [String.prefix]. *)
Ltac split_markers :=
  repeat match goal with
         | |- context [ascii_dec ?x ?y] =>
             destruct (ascii_dec x y); subst; try discriminate; try reflexivity
         end.

(** * Properties *)

(** ** Strings *)

Lemma string_app_nil_r (s : string) : s ++ "" = s.
Proof. induction s as [|c s IH]; simpl; [reflexivity | now rewrite IH]. Qed.

Lemma string_app_assoc (a b c : string) : (a ++ b) ++ c = a ++ (b ++ c).
Proof. induction a as [|x a IH]; simpl; [reflexivity | now rewrite IH]. Qed.

Lemma split_ws_from_space (c : ascii) (a b word : string) :
  isspace c = true ->
  split_ws_from word (a ++ String c b) = (split_ws_from word a ++ split_ws b)%list.
Proof.
  intros Hc. revert word.
  induction a as [|x a IH]; intros word; simpl.
  - now rewrite Hc.
  - destruct (isspace x).
    + now rewrite IH, app_assoc.
    + apply IH.
Qed.

Lemma split_ws_lstrip (s : string) : split_ws (lstrip s) = split_ws s.
Proof.
  induction s as [|c s IH]; simpl; [reflexivity|].
  unfold split_ws in *. simpl.
  destruct (isspace c) eqn:Hc; simpl; [exact IH | now rewrite Hc].
Qed.

Lemma split_ws_from_rstrip (s word : string) :
  split_ws_from word (rstrip s) = split_ws_from word s.
Proof.
  revert word. induction s as [|c s IH]; intros word; [reflexivity|].
  simpl. destruct (rstrip s) as [|d r] eqn:Hr.
  - destruct (isspace c) eqn:Hc; simpl.
    + rewrite <- IH. simpl. now rewrite app_nil_r.
    + rewrite Hc, <- IH. reflexivity.
  - simpl. destruct (isspace c); now rewrite <- !IH.
Qed.

Lemma split_ws_strip (s : string) : split_ws (strip s) = split_ws s.
Proof.
  unfold strip, split_ws. rewrite split_ws_from_rstrip. apply split_ws_lstrip.
Qed.

Lemma tokens_newline (a b : string) : tokens (a ++ NL ++ b) = tokens a + tokens b.
Proof.
  unfold tokens, split_ws, NL. simpl.
  rewrite split_ws_from_space by reflexivity.
  apply length_app.
Qed.

Lemma tokens_strip (s : string) : tokens (strip s) = tokens s.
Proof. unfold tokens. now rewrite split_ws_strip. Qed.

(** ** Splitting on a separator *)

Lemma split_from_skip (sep t s : string) :
  split_from sep (String.length t) (t ++ s) = split_from sep 0 s.
Proof.
  induction t as [|c t IH]; simpl; [|exact IH].
  destruct s; reflexivity.
Qed.

Lemma split_from_not_nil (sep : string) (s : string) :
  forall skip, split_from sep skip s <> [].
Proof.
  induction s as [|c s IH]; intros skip; cbn [split_from]; [discriminate|].
  destruct skip; [|apply IH].
  destruct (String.prefix sep (String c s)); [discriminate|].
  destruct (split_from sep 0 s); discriminate.
Qed.

Lemma concat_cons_char (sep : string) (c : ascii) (piece : string) (pieces : list string) :
  String.concat sep (String c piece :: pieces)
  = String c (String.concat sep (piece :: pieces)).
Proof. destruct pieces; reflexivity. Qed.

Lemma drop_length_le (n : nat) (s : string) :
  String.length (drop n s) <= String.length s.
Proof.
  revert s. induction n as [|n IH]; intros s; [apply Nat.le_refl|].
  destruct s as [|c s]; simpl; [apply Nat.le_refl|].
  apply Nat.le_trans with (String.length s); [apply IH | apply Nat.le_succ_diag_r].
Qed.

Lemma prefix_cut (p s : string) :
  String.prefix p s = true -> s = p ++ drop (String.length p) s.
Proof.
  revert s. induction p as [|a p IH]; intros s H; [reflexivity|].
  destruct s as [|b s]; simpl in H; [discriminate|].
  destruct (ascii_dec a b) as [->|]; [|discriminate].
  simpl. now rewrite <- (IH s H).
Qed.

(** Joining the pieces with the separator gives the string back. *)
Lemma join_split (sep : string) :
  sep <> "" -> forall s, join sep (split s sep) = s.
Proof.
  intros Hsep s. unfold join, split.
  remember (String.length s) as n eqn:Hn.
  assert (Hle : String.length s <= n) by (subst n; apply Nat.le_refl).
  clear Hn. revert s Hle.
  induction n as [|n IH]; intros s Hle.
  - destruct s; [reflexivity | inversion Hle].
  - destruct s as [|c s]; [reflexivity|].
    cbn [split_from].
    destruct (String.prefix sep (String c s)) eqn:Hp.
    + destruct sep as [|a m]; [contradiction|].
      pose proof (prefix_cut _ _ Hp) as Hcut.
      assert (Hrest : String.length (drop (String.length (String a m)) (String c s)) <= n).
      { apply Nat.le_trans with (String.length s).
        - apply (drop_length_le (String.length m) s).
        - now apply le_S_n. }
      remember (drop (String.length (String a m)) (String c s)) as rest eqn:E.
      clear E. simpl in Hcut. injection Hcut as Hc Hs. subst c s.
      change (String.length (String a m) - 1) with (String.length m - 0).
      rewrite Nat.sub_0_r, split_from_skip.
      pose proof (IH rest Hrest) as Hjoin.
      destruct (split_from (String a m) 0 rest) as [|x xs] eqn:Hx.
      * now apply split_from_not_nil in Hx.
      * change (String.concat (String a m) ("" :: x :: xs))
          with (String a m ++ String.concat (String a m) (x :: xs)).
        now rewrite Hjoin.
    + assert (Hs : String.length s <= n) by (simpl in Hle; now apply le_S_n).
      pose proof (IH s Hs) as Hjoin.
      destruct (split_from sep 0 s) as [|piece pieces] eqn:Hx.
      * now apply split_from_not_nil in Hx.
      * now rewrite concat_cons_char, Hjoin.
Qed.

Lemma split_empty (sep : string) : split "" sep = [""].
Proof. reflexivity. Qed.

Lemma split_overlapping_dashes : split "a----b---" "---" = ["a"; "-b"; ""].
Proof. reflexivity. Qed.

Lemma split_ws_sample : split_ws "  ab  c d " = ["ab"; "c"; "d"].
Proof. reflexivity. Qed.

(** ** Running the operations *)

Section Runs.

Variable service : list ChatRequest -> ChatRequest -> Outcome.
Variable clock : nat -> string.

Lemma generate_blog_post_reply topic target_audience word_count w reply :
  service (sent w) (blog_request topic target_audience word_count) = Reply reply ->
  generate_blog_post service clock topic target_audience word_count w
  = (Returned (blog_record topic target_audience (blog_parse reply) (clock (ticks w))),
     mkWorld (sent w ++ [blog_request topic target_audience word_count]) (S (ticks w))).
Proof.
  intros H. unfold generate_blog_post, try_except, bind, create.
  rewrite H. reflexivity.
Qed.

Lemma generate_blog_post_failure topic target_audience word_count w e :
  service (sent w) (blog_request topic target_audience word_count) = Failure e ->
  isinstance_Exception e = true ->
  generate_blog_post service clock topic target_audience word_count w
  = (Returned (error_record e (clock (ticks w))),
     mkWorld (sent w ++ [blog_request topic target_audience word_count]) (S (ticks w))).
Proof.
  intros H Hc. unfold generate_blog_post, try_except, bind, create.
  rewrite H, Hc. reflexivity.
Qed.

Lemma generate_blog_post_escapes topic target_audience word_count w e :
  service (sent w) (blog_request topic target_audience word_count) = Failure e ->
  isinstance_Exception e = false ->
  generate_blog_post service clock topic target_audience word_count w
  = (Raised e,
     mkWorld (sent w ++ [blog_request topic target_audience word_count]) (ticks w)).
Proof.
  intros H Hc. unfold generate_blog_post, try_except, bind, create.
  rewrite H, Hc. reflexivity.
Qed.

End Runs.

(** ** The blog-post parser *)

Lemma blog_line_unmarked (v : BlogVars) (line : string) :
  startswith line "TITLE:" = false ->
  startswith line "CONTENT:" = false ->
  startswith line "TAGS:" = false ->
  String.eqb (current_section v) "content" = false ->
  blog_line v line = v.
Proof.
  intros Ht Hc Hg Hs. unfold blog_line. now rewrite Ht, Hc, Hg, Hs.
Qed.

Lemma blog_loop_unmarked (lines : list string) (v : BlogVars) :
  (forall line, In line lines ->
     startswith line "TITLE:" = false
     /\ startswith line "CONTENT:" = false
     /\ startswith line "TAGS:" = false) ->
  String.eqb (current_section v) "content" = false ->
  fold_left blog_line lines v = v.
Proof.
  revert v. induction lines as [|line lines IH]; intros v Hall Hs; [reflexivity|].
  simpl. destruct (Hall line (or_introl eq_refl)) as (Ht & Hc & Hg).
  rewrite blog_line_unmarked by assumption.
  apply IH; [|assumption].
  intros l Hl. apply Hall. now right.
Qed.

(** C1. The [word_count] of a parsed reply is the number of
    whitespace-delimited tokens of title + newline + untrimmed body, whatever
    the reply (an empty title or body included); the newline separates, so
    this is the title's tokens plus the body's, and trimming the body, as the
    returned [content] does, leaves it unchanged. *)
Theorem word_count_counts_title_and_body :
  forall service clock topic target_audience word_count w reply,
    exact_range word_count ->
    service (sent w) (blog_request topic target_audience word_count) = Reply reply ->
    let v := blog_parse reply in
    exists post,
      fst (generate_blog_post service clock topic target_audience word_count w)
      = Returned post
      /\ PyDict.get post "title" = Some (VStr (title v))
      /\ PyDict.get post "content" = Some (VStr (strip (body v)))
      /\ PyDict.get post "word_count"
         = Some (VInt (Z.of_nat (List.length (split_ws (title v ++ NL ++ body v)))))
      /\ List.length (split_ws (title v ++ NL ++ body v))
         = tokens (title v) + tokens (strip (body v)).
Proof.
  intros service clock topic target_audience word_count w reply _ Hreply v.
  exists (blog_record topic target_audience v (clock (ticks w))).
  rewrite (generate_blog_post_reply _ _ _ _ _ _ _ Hreply).
  repeat split.
  rewrite tokens_strip. apply tokens_newline.
Qed.

Lemma word_count_counts_title_and_body_witness :
  exists post,
    fst (generate_blog_post (replying sample_reply) counting_clock
           "Test Topic" "general" 20 fresh) = Returned post
    /\ PyDict.get post "word_count" = Some (VInt 11)
    /\ PyDict.get post "title" = Some (VStr "Test Title").
Proof.
  destruct (word_count_counts_title_and_body (replying sample_reply) counting_clock
              "Test Topic" "general" 20%Z fresh sample_reply eq_refl eq_refl)
    as (post & Hrun & Htitle & _ & Hcount & _).
  exists post. split; [exact Hrun|]. split; [exact Hcount | exact Htitle].
Defined.

(** C2. A reply none of whose lines starts with [TITLE:], [CONTENT:] or
    [TAGS:] (the empty reply is one) is not an error: the operation returns
    a record with status success, empty title, empty content and no tags. *)
Theorem unmarked_reply_is_success :
  forall service clock topic target_audience word_count w reply,
    exact_range word_count ->
    service (sent w) (blog_request topic target_audience word_count) = Reply reply ->
    (forall line, In line (split reply NL) ->
       startswith line "TITLE:" = false
       /\ startswith line "CONTENT:" = false
       /\ startswith line "TAGS:" = false) ->
    exists post,
      fst (generate_blog_post service clock topic target_audience word_count w)
      = Returned post
      /\ PyDict.get post "status" = Some (VStr "success")
      /\ PyDict.get post "title" = Some (VStr "")
      /\ PyDict.get post "content" = Some (VStr "")
      /\ PyDict.get post "tags" = Some (VList []).
Proof.
  intros service clock topic target_audience word_count w reply _ Hreply Hlines.
  exists (blog_record topic target_audience blog_init (clock (ticks w))).
  rewrite (generate_blog_post_reply _ _ _ _ _ _ _ Hreply).
  unfold blog_parse. rewrite (blog_loop_unmarked (split reply NL) blog_init Hlines eq_refl).
  repeat split.
Qed.

Lemma unmarked_reply_is_success_witness :
  exists post,
    fst (generate_blog_post (replying "") counting_clock "Test" "general" 800 fresh)
    = Returned post
    /\ PyDict.get post "status" = Some (VStr "success")
    /\ PyDict.get post "title" = Some (VStr "")
    /\ PyDict.get post "content" = Some (VStr "")
    /\ PyDict.get post "tags" = Some (VList []).
Proof.
  apply (unmarked_reply_is_success (replying "") counting_clock "Test" "general"
           800%Z fresh "" eq_refl eq_refl).
  intros line [<- | []]. repeat split.
Defined.

(** ** Trimming *)

Lemma lstrip_decompose (s : string) :
  exists l, s = l ++ lstrip s /\ all_space l = true /\ begins_clean (lstrip s) = true.
Proof.
  induction s as [|c s (l & Hs & Hl & Hb)]; [now exists ""|].
  simpl. destruct (isspace c) eqn:Hc.
  - exists (String c l). simpl. rewrite Hc, Hl. now rewrite <- Hs.
  - exists "". simpl. now rewrite Hc.
Qed.

Lemma rstrip_decompose (s : string) :
  exists r, s = rstrip s ++ r /\ all_space r = true /\ ends_clean (rstrip s) = true.
Proof.
  induction s as [|c s (r & Hs & Hr & He)]; [now exists ""|].
  simpl. destruct (rstrip s) as [|d t] eqn:Ht.
  - destruct (isspace c) eqn:Hc.
    + exists (String c s). simpl in Hs. subst r. simpl. now rewrite Hc, Hr.
    + exists s. simpl in *. subst r. now rewrite Hc, Hr.
  - exists r. simpl in *. now rewrite <- Hs.
Qed.

Lemma rstrip_begins_clean (s : string) :
  begins_clean s = true -> begins_clean (rstrip s) = true.
Proof.
  destruct s as [|c s]; [reflexivity|]. simpl. intros Hc.
  destruct (rstrip s); [|exact Hc].
  destruct (isspace c) eqn:E; [discriminate|].
  simpl. now rewrite E.
Qed.

(** [strip] removes a run of whitespace at each end and nothing else. *)
Lemma strip_decompose (s : string) :
  exists l r,
    s = l ++ strip s ++ r
    /\ all_space l = true /\ all_space r = true /\ trimmed (strip s) = true.
Proof.
  destruct (lstrip_decompose s) as (l & Hs & Hl & Hb).
  destruct (rstrip_decompose (lstrip s)) as (r & Hs' & Hr & He).
  exists l, r. unfold strip, trimmed.
  rewrite <- Hs', (rstrip_begins_clean _ Hb), He. auto.
Qed.

Lemma strip_empty : strip "" = "".
Proof. reflexivity. Qed.

(** ** The boundary around the external call *)

Section Boundary.

Variable service : list ChatRequest -> ChatRequest -> Outcome.
Variable clock : nat -> string.

Lemma calendar_loop_returns (sections : list string) :
  forall ideas w, exists ideas' w',
    calendar_loop clock sections ideas w = (Returned ideas', w')
    /\ sent w' = sent w.
Proof.
  induction sections as [|section rest IH]; intros ideas w; simpl.
  - now exists ideas, w.
  - destruct (is_candidate section); [|apply IH].
    unfold bind, now_isoformat.
    destruct (PyDict.has _ "title");
      match goal with
      | |- context [calendar_loop _ _ ?i ?x] =>
          destruct (IH i x) as (ideas' & w' & Hrun & Hsent)
      end; exists ideas', w'; split; auto.
Qed.

Lemma generate_content_calendar_failure niche num_posts w e :
  service (sent w) (calendar_request niche num_posts) = Failure e ->
  isinstance_Exception e = true ->
  generate_content_calendar service clock niche num_posts w
  = (Returned (error_record e (clock (ticks w))),
     mkWorld (sent w ++ [calendar_request niche num_posts]) (S (ticks w))).
Proof.
  intros H Hc. unfold generate_content_calendar, try_except, bind, create.
  rewrite H, Hc. reflexivity.
Qed.

Lemma generate_content_calendar_escapes niche num_posts w e :
  service (sent w) (calendar_request niche num_posts) = Failure e ->
  isinstance_Exception e = false ->
  generate_content_calendar service clock niche num_posts w
  = (Raised e, mkWorld (sent w ++ [calendar_request niche num_posts]) (ticks w)).
Proof.
  intros H Hc. unfold generate_content_calendar, try_except, bind, create.
  rewrite H, Hc. reflexivity.
Qed.

Lemma generate_blog_post_returns topic target_audience word_count w :
  raises_only_Exception service ->
  exists post w',
    generate_blog_post service clock topic target_audience word_count w
    = (Returned post, w').
Proof.
  intros Honly.
  destruct (service (sent w) (blog_request topic target_audience word_count))
    as [reply|e] eqn:H.
  - rewrite (generate_blog_post_reply _ _ _ _ _ _ _ H). eauto.
  - rewrite (generate_blog_post_failure _ _ _ _ _ _ _ H (Honly _ _ _ H)). eauto.
Qed.

Lemma generate_content_calendar_returns niche num_posts w :
  raises_only_Exception service ->
  exists cal w',
    generate_content_calendar service clock niche num_posts w = (Returned cal, w').
Proof.
  intros Honly.
  destruct (service (sent w) (calendar_request niche num_posts)) as [reply|e] eqn:H.
  - unfold generate_content_calendar, try_except, bind, create. rewrite H.
    destruct (calendar_loop_returns (split reply "---") []
                (mkWorld (sent w ++ [calendar_request niche num_posts]) (ticks w)))
      as (ideas & w' & Hrun & _).
    rewrite Hrun. unfold now_isoformat, ret. eauto.
  - rewrite (generate_content_calendar_failure _ _ _ _ H (Honly _ _ _ H)). eauto.
Qed.

End Boundary.




(** ** The feedback analyzer *)

Lemma analyze_sentiment_run service text w :
  fst (analyze_sentiment service text w)
  = match service (sent w) (sentiment_request text) with
    | Reply reply => Returned (strip reply)
    | Failure e =>
        if isinstance_Exception e
        then Returned ("Error: " ++ exc_message e)
        else Raised e
    end.
Proof.
  unfold analyze_sentiment, try_except, bind, create.
  destruct (service (sent w) (sentiment_request text)) as [reply|e];
    [reflexivity|].
  now destruct (isinstance_Exception e).
Qed.

Lemma identify_key_themes_run service feedback_list w :
  fst (identify_key_themes service feedback_list w)
  = match service (sent w) (themes_request feedback_list) with
    | Reply reply => Returned (strip reply)
    | Failure e =>
        if isinstance_Exception e
        then Returned ("Error: " ++ exc_message e)
        else Raised e
    end.
Proof.
  unfold identify_key_themes, try_except, bind, create.
  destruct (service (sent w) (themes_request feedback_list)) as [reply|e];
    [reflexivity|].
  now destruct (isinstance_Exception e).
Qed.




(** ** Tags *)

Lemma filter_map_swap {A B : Type} (f : A -> B) (p : B -> bool) (l : list A) :
  map f (filter (fun a => p (f a)) l) = filter p (map f l).
Proof.
  induction l as [|a l IH]; simpl; [reflexivity|].
  destruct (p (f a)); simpl; now rewrite IH.
Qed.

Lemma tag_list_spec (raw : string) : tag_list raw = spec_tags raw.
Proof. apply filter_map_swap. Qed.

(** C4. The returned tags are the comma-separated pieces of the raw tags
    string, each trimmed, without those that are empty after trimming, in
    their original order; [test, blog, post] gives the three tags [test],
    [blog], [post]. *)
Theorem tags_are_split_trimmed_nonempty :
  forall service clock topic target_audience word_count w reply,
    exact_range word_count ->
    service (sent w) (blog_request topic target_audience word_count) = Reply reply ->
    (exists post,
        fst (generate_blog_post service clock topic target_audience word_count w)
        = Returned post
        /\ PyDict.get post "tags"
           = Some (VList (map VStr
                (filter truthy (map strip (split (tags (blog_parse reply)) ","))))))
    /\ tag_list "test, blog, post" = ["test"; "blog"; "post"].
Proof.
  intros service clock topic target_audience word_count w reply _ Hreply.
  split; [|reflexivity].
  exists (blog_record topic target_audience (blog_parse reply) (clock (ticks w))).
  rewrite (generate_blog_post_reply _ _ _ _ _ _ _ Hreply).
  split; [reflexivity|].
  simpl. now rewrite tag_list_spec.
Qed.

Lemma tags_are_split_trimmed_nonempty_witness :
  exists post,
    fst (generate_blog_post (replying sample_reply) counting_clock
           "Test Topic" "general" 20 fresh) = Returned post
    /\ PyDict.get post "tags" = Some (VList [VStr "test"; VStr "blog"; VStr "post"]).
Proof.
  destruct (tags_are_split_trimmed_nonempty (replying sample_reply) counting_clock
              "Test Topic" "general" 20%Z fresh sample_reply eq_refl eq_refl)
    as ((post & Hrun & Htags) & _).
  exists post. split; [exact Hrun | exact Htags].
Defined.

(** ** The size of the requested completion *)

Lemma estimated_tokens_quot (word_count : Z) :
  estimated_tokens word_count = Z.quot (3 * word_count) 2.
Proof.
  unfold estimated_tokens, py_int.
  change (Qnum (inject_Z word_count * 1.5)%Q) with (word_count * 15)%Z.
  change (Z.pos (Qden (inject_Z word_count * 1.5)%Q)) with (2 * 5)%Z.
  replace (word_count * 15)%Z with ((3 * word_count) * 5)%Z by lia.
  apply Z.quot_mul_cancel_r; lia.
Qed.

Lemma spec_round_comp (x y : Q) : (x == y)%Q -> spec_round x = spec_round y.
Proof.
  intros H. unfold spec_round.
  rewrite (Qfloor_comp x y H).
  assert (Hc : ((x - inject_Z (Qfloor y))%Q ?= (1 # 2))%Q
               = ((y - inject_Z (Qfloor y))%Q ?= (1 # 2))%Q).
  { apply Qcompare_comp; [|reflexivity]. now rewrite H. }
  now rewrite Hc.
Qed.

Lemma spec_round_integer (n : Z) : spec_round (inject_Z n) = n.
Proof.
  unfold spec_round. rewrite Qfloor_Z.
  assert (Hlt : ((inject_Z n - inject_Z n)%Q ?= (1 # 2))%Q = Lt).
  { apply (proj1 (Qlt_alt _ _)).
    unfold Qlt, Qminus, Qplus, Qopp, inject_Z. cbn [Qnum Qden]. lia. }
  now rewrite Hlt.
Qed.

Lemma estimated_tokens_even (word_count : Z) :
  Z.even word_count = true ->
  estimated_tokens word_count = spec_round (inject_Z word_count * 1.5)%Q.
Proof.
  intros He. apply Z.even_spec in He. destruct He as (k & ->).
  rewrite estimated_tokens_quot.
  rewrite (spec_round_comp _ (inject_Z (3 * k))).
  - rewrite spec_round_integer.
    replace (3 * (2 * k))%Z with ((3 * k) * 2)%Z by lia.
    apply Z.quot_mul. lia.
  - unfold Qeq, Qmult, inject_Z. cbn [Qnum Qden].
    change (Z.pos (1 * 10)) with 10%Z. lia.
Qed.

(** C5, as stated, fails: for a target of one word the request carries a
    maximum of 1, while 1 * 1.5 rounds to 2 (ties to even or ties up). *)
Lemma max_tokens_is_not_rounded :
  exact_range 1
  /\ sent (snd (generate_blog_post (replying sample_reply) counting_clock
                  "Test Topic" "general" 1 fresh))
     = [blog_request "Test Topic" "general" 1]
  /\ max_tokens (blog_request "Test Topic" "general" 1) = 1%Z
  /\ spec_round (inject_Z 1 * 1.5)%Q = 2%Z
  /\ spec_round_half_up (inject_Z 1 * 1.5)%Q = 2%Z
  /\ max_tokens (blog_request "Test Topic" "general" 1)
     <> spec_round (inject_Z 1 * 1.5)%Q.
Proof.
  repeat split; vm_compute; congruence.
Qed.

(** C5, amended. Each call of [generate_blog_post] sends exactly one
    request; its maximum output size is the target word count times 1.5
    truncated toward zero (for a target of at least zero, the integer
    quotient of three times the target by two), which is the rounded product
    whenever the target is even; its randomness parameter is 0.7. *)
Theorem max_tokens_is_truncated_product :
  forall service clock topic target_audience word_count w,
    exact_range word_count ->
    let req := blog_request topic target_audience word_count in
    sent (snd (generate_blog_post service clock topic target_audience word_count w))
    = (sent w ++ [req])%list
    /\ max_tokens req = Z.quot (3 * word_count) 2
    /\ ((0 <= word_count)%Z -> max_tokens req = (3 * word_count / 2)%Z)
    /\ (Z.even word_count = true ->
        max_tokens req = spec_round (inject_Z word_count * 1.5)%Q)
    /\ temperature req = 0.7%Q.
Proof.
  intros service clock topic target_audience word_count w _ req.
  split; [|split; [|split; [|split]]].
  - destruct (service (sent w) req) as [reply|e] eqn:H.
    + subst req. now rewrite (generate_blog_post_reply _ _ _ _ _ _ _ H).
    + subst req. destruct (isinstance_Exception e) eqn:Hc.
      * now rewrite (generate_blog_post_failure _ _ _ _ _ _ _ H Hc).
      * now rewrite (generate_blog_post_escapes _ _ _ _ _ _ _ H Hc).
  - apply estimated_tokens_quot.
  - intros Hpos. change (max_tokens req) with (estimated_tokens word_count).
    rewrite estimated_tokens_quot.
    apply Z.quot_div_nonneg; lia.
  - apply estimated_tokens_even.
  - reflexivity.
Qed.

Lemma max_tokens_is_truncated_product_witness :
  exact_range 800
  /\ sent (snd (generate_blog_post (replying sample_reply) counting_clock
                  "Passive Income" "entrepreneurs" 800 fresh))
     = [blog_request "Passive Income" "entrepreneurs" 800]
  /\ max_tokens (blog_request "Passive Income" "entrepreneurs" 800) = 1200%Z
  /\ temperature (blog_request "Passive Income" "entrepreneurs" 800) = 0.7%Q.
Proof.
  assert (Hrange : exact_range 800) by (unfold exact_range; simpl; lia).
  destruct (max_tokens_is_truncated_product (replying sample_reply) counting_clock
              "Passive Income" "entrepreneurs" 800%Z fresh Hrange)
    as (Hsent & Hmax & _ & _ & Htemp).
  split; [exact Hrange|]. split; [exact Hsent|]. split; [exact Hmax | exact Htemp].
Defined.

(** ** Stripping the marker from a line *)

Lemma replace_from_skip (old new t s : string) :
  replace_from old new (String.length t) (t ++ s) = replace_from old new 0 s.
Proof.
  induction t as [|c t IH]; simpl; [|exact IH].
  destruct s; reflexivity.
Qed.

Lemma replace_absent (old new s : string) :
  contains old s = false -> replace_from old new 0 s = s.
Proof.
  induction s as [|c s IH]; intros H; [reflexivity|].
  change (contains old (String c s))
    with (String.prefix old (String c s) || contains old s) in H.
  apply orb_false_iff in H. destruct H as (Hp & Hc).
  cbn [replace_from]. rewrite Hp. now rewrite (IH Hc).
Qed.

(** When the marker does not occur again after the start of the line, the
    value the parsers keep is the trimmed remainder of the line. *)
Lemma marker_value_when_marker_unique (marker line : string) :
  startswith line marker = true ->
  contains marker (after_marker marker line) = false ->
  strip (replace line marker "") = strip (after_marker marker line).
Proof.
  unfold startswith, after_marker, replace. intros Hp Hc.
  f_equal.
  destruct marker as [|c m].
  - simpl in *. destruct line; discriminate.
  - set (rest := drop (String.length (String c m)) line) in *.
    rewrite (prefix_cut _ _ Hp) at 1. fold rest.
    assert (Hp' : String.prefix (String c m) (String c m ++ rest) = true).
    { unfold rest. now rewrite <- (prefix_cut _ _ Hp). }
    change (String c m ++ rest) with (String c (m ++ rest)) in *.
    cbn [replace_from]. rewrite Hp'.
    change (String.length (String c m) - 1) with (String.length m - 0).
    rewrite Nat.sub_0_r, replace_from_skip.
    now apply replace_absent.
Qed.

(** C3, at an input where the code departs from it. The line
    [TITLE: Notes on the TITLE: tag] starts with the marker and its trimmed
    remainder is [Notes on the TITLE: tag], yet the returned title is
    [Notes on the  tag]: the later occurrence of the marker is removed
    too.  The calendar parser does the same with [Title:]. *)
Theorem recurring_marker_is_cut_out_of_value :
  startswith recurring_title_reply "TITLE:" = true
  /\ strip (after_marker "TITLE:" recurring_title_reply) = "Notes on the TITLE: tag"
  /\ fst (generate_blog_post (replying recurring_title_reply) counting_clock
            "Test Topic" "general" 800 fresh)
     = Returned [ ("title", VStr "Notes on the  tag");
                  ("content", VStr "");
                  ("tags", VList []);
                  ("topic", VStr "Test Topic");
                  ("target_audience", VStr "general");
                  ("word_count", VInt 4);
                  ("generated_at", VStr "t0");
                  ("status", VStr "success") ]
  /\ strip (after_marker "Title:" "Title: Why the Title: line matters")
     = "Why the Title: line matters"
  /\ fst (generate_content_calendar (replying recurring_calendar_reply)
            counting_clock "Test Niche" 30 fresh)
     = Returned [ ("niche", VStr "Test Niche");
                  ("total_ideas", VInt 1);
                  ("ideas", VList [ VDict [ ("generated_at", VStr "t0");
                                            ("title", VStr "Why the  line matters") ] ]);
                  ("generated_at", VStr "t1");
                  ("status", VStr "success") ].
Proof.
  repeat split; vm_compute; reflexivity.
Qed.

(** ** Repeated markers in a blog reply *)

Lemma tags_line_not_title (line : string) :
  startswith line "TAGS:" = true -> startswith line "TITLE:" = false.
Proof.
  unfold startswith.
  destruct line as [|a [|b l]]; cbn [String.prefix]; try discriminate; split_markers.
Qed.

Lemma tags_line_not_content (line : string) :
  startswith line "TAGS:" = true -> startswith line "CONTENT:" = false.
Proof.
  unfold startswith.
  destruct line as [|a l]; cbn [String.prefix]; try discriminate; split_markers.
Qed.

Lemma content_line_not_title (line : string) :
  startswith line "CONTENT:" = true -> startswith line "TITLE:" = false.
Proof.
  unfold startswith.
  destruct line as [|a l]; cbn [String.prefix]; try discriminate; split_markers.
Qed.

Lemma blog_line_title_set (v : BlogVars) (line : string) :
  startswith line "TITLE:" = true ->
  title (blog_line v line) = strip (replace line "TITLE:" "").
Proof. intros H. unfold blog_line. now rewrite H. Qed.

Lemma blog_line_title_kept (v : BlogVars) (line : string) :
  startswith line "TITLE:" = false -> title (blog_line v line) = title v.
Proof.
  intros H. unfold blog_line. rewrite H.
  destruct (startswith line "CONTENT:"); [reflexivity|].
  destruct (startswith line "TAGS:"); [reflexivity|].
  now destruct (String.eqb (current_section v) "content" && truthy (strip line)).
Qed.

Lemma blog_line_tags_set (v : BlogVars) (line : string) :
  startswith line "TAGS:" = true ->
  tags (blog_line v line) = strip (replace line "TAGS:" "").
Proof.
  intros H. unfold blog_line.
  now rewrite (tags_line_not_title _ H), (tags_line_not_content _ H), H.
Qed.

Lemma blog_line_tags_kept (v : BlogVars) (line : string) :
  startswith line "TAGS:" = false -> tags (blog_line v line) = tags v.
Proof.
  intros H. unfold blog_line. rewrite H.
  destruct (startswith line "TITLE:"); [reflexivity|].
  destruct (startswith line "CONTENT:"); [reflexivity|].
  now destruct (String.eqb (current_section v) "content" && truthy (strip line)).
Qed.

Lemma blog_loop_kept {A : Type} (field : BlogVars -> A) (marker : string) :
  (forall v line, startswith line marker = false ->
                  field (blog_line v line) = field v) ->
  forall lines v,
    (forall line, In line lines -> startswith line marker = false) ->
    field (fold_left blog_line lines v) = field v.
Proof.
  intros Hkept lines.
  induction lines as [|line lines IH]; intros v Hall; [reflexivity|].
  simpl. rewrite IH.
  - apply Hkept, Hall. now left.
  - intros l Hl. apply Hall. now right.
Qed.

Lemma blog_line_body_grows (v : BlogVars) (line : string) :
  exists more, body (blog_line v line) = body v ++ more.
Proof.
  unfold blog_line.
  destruct (startswith line "TITLE:");
    [exists ""; simpl; now rewrite string_app_nil_r|].
  destruct (startswith line "CONTENT:");
    [exists ""; simpl; now rewrite string_app_nil_r|].
  destruct (startswith line "TAGS:");
    [exists ""; simpl; now rewrite string_app_nil_r|].
  destruct (String.eqb (current_section v) "content" && truthy (strip line)).
  - now exists (line ++ NL).
  - exists "". now rewrite string_app_nil_r.
Qed.

Lemma blog_loop_body_grows (lines : list string) :
  forall v, exists more, body (fold_left blog_line lines v) = body v ++ more.
Proof.
  induction lines as [|line lines IH]; intros v; simpl.
  - exists "". now rewrite string_app_nil_r.
  - destruct (IH (blog_line v line)) as (more2 & H2).
    destruct (blog_line_body_grows v line) as (more1 & H1).
    exists (more1 ++ more2). now rewrite H2, H1, string_app_assoc.
Qed.



(** The loop on the reply with repeated markers, run to its end. *)
Lemma repeated_reply_parsed :
  blog_parse repeated_reply
  = mkBlogVars "Second" ("alpha" ++ NL ++ "beta" ++ NL) "two, three" "tags".
Proof. reflexivity. Qed.

(** ** The calendar parser *)

Lemma has_set (d : PyDict.t) (k k' : string) (v : PyValue) :
  PyDict.has (PyDict.set d k v) k' = String.eqb k k' || PyDict.has d k'.
Proof.
  unfold PyDict.has.
  induction d as [|[k0 x] d IH]; simpl.
  - now destruct (String.eqb k k').
  - destruct (String.eqb k0 k) eqn:Hk; simpl.
    + apply String.eqb_eq in Hk. subst k0.
      now destruct (String.eqb k k').
    + destruct (String.eqb k0 k'); [now rewrite orb_true_r | exact IH].
Qed.

Lemma idea_line_has_title (idea : PyDict.t) (line : string) :
  PyDict.has (idea_line idea line) "title"
  = title_line line || PyDict.has idea "title".
Proof.
  unfold idea_line, title_line.
  destruct (startswith line "Title:"); [now rewrite has_set|].
  destruct (startswith line "Description:"); [now rewrite has_set|].
  destruct (startswith line "Audience:"); [now rewrite has_set|].
  destruct (startswith line "Level:"); [now rewrite has_set | reflexivity].
Qed.

Lemma idea_loop_has_title (lines : list string) :
  forall idea,
    PyDict.has (fold_left idea_line lines idea) "title"
    = existsb title_line lines || PyDict.has idea "title".
Proof.
  induction lines as [|line lines IH]; intros idea; simpl; [reflexivity|].
  rewrite IH, idea_line_has_title.
  destruct (title_line line), (existsb title_line lines); reflexivity.
Qed.

Lemma idea_of_section_has_title (generated_at section : string) :
  PyDict.has (idea_of_section generated_at section) "title"
  = existsb title_line (split (strip section) NL).
Proof.
  unfold idea_of_section. rewrite idea_loop_has_title. apply orb_false_r.
Qed.

Lemma contributes_unfold (section : string) :
  contributes section
  = is_candidate section && existsb title_line (split (strip section) NL).
Proof. reflexivity. Qed.

Section Calendar.

Variable service : list ChatRequest -> ChatRequest -> Outcome.
Variable clock : nat -> string.

Lemma calendar_loop_filters (sections : list string) :
  forall ideas w, exists new w',
    calendar_loop clock sections ideas w = (Returned (ideas ++ new)%list, w')
    /\ sent w' = sent w
    /\ Forall2 idea_parsed_from new (filter contributes sections).
Proof.
  induction sections as [|section rest IH]; intros ideas w.
  - exists [], w. simpl. rewrite app_nil_r. auto.
  - cbn [calendar_loop filter]. rewrite contributes_unfold.
    destruct (is_candidate section); cbn [andb].
    + unfold bind at 1. unfold now_isoformat at 1.
      rewrite idea_of_section_has_title.
      destruct (existsb title_line (split (strip section) NL)) eqn:Ht.
      * match goal with
        | |- context [calendar_loop _ _ ?i ?x] =>
            destruct (IH i x) as (new & w' & Hrun & Hsent & Hall)
        end.
        exists (idea_of_section (clock (ticks w)) section :: new), w'.
        rewrite Hrun, <- app_assoc. split; [reflexivity|]. split; [exact Hsent|].
        constructor; [|exact Hall].
        exists (clock (ticks w)). split; [reflexivity|].
        now rewrite idea_of_section_has_title.
      * match goal with
        | |- context [calendar_loop _ _ ?i ?x] =>
            destruct (IH i x) as (new & w' & Hrun & Hsent & Hall)
        end.
        exists new, w'. auto.
    + apply IH.
Qed.

Lemma generate_content_calendar_reply niche num_posts w reply :
  service (sent w) (calendar_request niche num_posts) = Reply reply ->
  exists ideas generated_at,
    fst (generate_content_calendar service clock niche num_posts w)
    = Returned [ ("niche", VStr niche);
                 ("total_ideas", VInt (Z.of_nat (List.length ideas)));
                 ("ideas", VList (map VDict ideas));
                 ("generated_at", VStr generated_at);
                 ("status", VStr "success") ]
    /\ Forall2 idea_parsed_from ideas (filter contributes (split reply "---")).
Proof.
  intros H. unfold generate_content_calendar, try_except, bind, create.
  rewrite H.
  destruct (calendar_loop_filters (split reply "---") []
              (mkWorld (sent w ++ [calendar_request niche num_posts]) (ticks w)))
    as (ideas & w' & Hrun & _ & Hall).
  rewrite Hrun. unfold now_isoformat, ret. simpl.
  exists ideas, (clock (ticks w')). auto.
Qed.

End Calendar.

(** C6. The reply is cut at every [---]; the ideas returned are, in
    order, the parses of exactly those segments that contain [IDEA],
    contain [Title:] and have a line from which a title is extracted.  Every
    other segment, the empty ones and those whose title cannot be extracted
    included, leaves no record, whatever other lines it has. *)
Theorem ideas_are_the_contributing_segments :
  forall service clock niche num_posts w reply,
    service (sent w) (calendar_request niche num_posts) = Reply reply ->
    exists cal ideas,
      fst (generate_content_calendar service clock niche num_posts w) = Returned cal
      /\ PyDict.get cal "ideas" = Some (VList (map VDict ideas))
      /\ Forall2 idea_parsed_from ideas (filter contributes (split reply "---"))
      /\ List.length ideas = List.length (filter contributes (split reply "---"))
      /\ (forall section,
            contributes section = true <->
            contains "IDEA" section = true
            /\ contains "Title:" section = true
            /\ exists line,
                 In line (split (strip section) NL)
                 /\ startswith line "Title:" = true).
Proof.
  intros service clock niche num_posts w reply Hreply.
  destruct (generate_content_calendar_reply service clock niche num_posts w reply Hreply)
    as (ideas & generated_at & Hrun & Hall).
  eexists. exists ideas. split; [exact Hrun|].
  split; [reflexivity|]. split; [exact Hall|].
  split; [exact (Forall2_length Hall)|].
  intros section. unfold contributes.
  rewrite !andb_true_iff, existsb_exists. unfold title_line. tauto.
Qed.

Lemma ideas_are_the_contributing_segments_witness :
  exists cal ideas,
    fst (generate_content_calendar (replying calendar_reply) counting_clock
           "Test Niche" 5 fresh) = Returned cal
    /\ PyDict.get cal "ideas" = Some (VList (map VDict ideas))
    /\ List.length ideas = 1.
Proof.
  destruct (ideas_are_the_contributing_segments (replying calendar_reply)
              counting_clock "Test Niche" 5%Z fresh calendar_reply eq_refl)
    as (cal & ideas & Hrun & Hideas & _ & Hlen & _).
  exists cal, ideas. split; [exact Hrun|]. split; [exact Hideas | exact Hlen].
Defined.

(** The calendar reply of two segments, run to its end: the first segment
    gives a record with its four fields, the second and the trailing empty
    one give none. *)
Lemma calendar_reply_parsed :
  fst (generate_content_calendar (replying calendar_reply) counting_clock
         "Test Niche" 5 fresh)
  = Returned calendar_sample.
Proof. vm_compute. reflexivity. Qed.

(** C7. In every successful calendar result [total_ideas] is the length
    of [ideas]; it need not be the number of posts asked for: asking for
    five with a reply of which one segment parses gives one. *)
Theorem total_ideas_is_length_of_ideas :
  (forall service clock niche num_posts w cal,
      fst (generate_content_calendar service clock niche num_posts w) = Returned cal ->
      PyDict.get cal "status" = Some (VStr "success") ->
      exists items,
        PyDict.get cal "ideas" = Some (VList items)
        /\ PyDict.get cal "total_ideas" = Some (VInt (Z.of_nat (List.length items))))
  /\ (exists cal,
        fst (generate_content_calendar (replying calendar_reply) counting_clock
               "Test Niche" 5 fresh) = Returned cal
        /\ PyDict.get cal "status" = Some (VStr "success")
        /\ PyDict.get cal "total_ideas" = Some (VInt 1)
        /\ PyDict.get cal "total_ideas" <> Some (VInt 5)).
Proof.
  split.
  - intros service clock niche num_posts w cal Hrun Hstatus.
    destruct (service (sent w) (calendar_request niche num_posts)) as [reply|e] eqn:H.
    + destruct (generate_content_calendar_reply service clock niche num_posts w reply H)
        as (ideas & generated_at & Hrun' & _).
      rewrite Hrun' in Hrun. injection Hrun as <-.
      exists (map VDict ideas). split; [reflexivity|].
      simpl. now rewrite length_map.
    + destruct (isinstance_Exception e) eqn:Hc.
      * rewrite (generate_content_calendar_failure _ _ _ _ _ _ H Hc) in Hrun.
        injection Hrun as <-. discriminate Hstatus.
      * rewrite (generate_content_calendar_escapes _ _ _ _ _ _ H Hc) in Hrun.
        discriminate Hrun.
  - eexists. split; [apply calendar_reply_parsed|].
    repeat split. discriminate.
Qed.

Lemma total_ideas_is_length_of_ideas_witness :
  exists items,
    PyDict.get (calendar_sample) "ideas" = Some (VList items)
    /\ PyDict.get (calendar_sample) "total_ideas"
       = Some (VInt (Z.of_nat (List.length items))).
Proof.
  destruct total_ideas_is_length_of_ideas as (Hlen & _).
  apply (Hlen (replying calendar_reply) counting_clock "Test Niche" 5%Z fresh).
  - vm_compute. reflexivity.
  - reflexivity.
Defined.

(** * Further properties of the parsing layer *)

(** ** What the blog loop keeps as body *)

Lemma flatten_app (a b : list string) : flatten (a ++ b) = flatten a ++ flatten b.
Proof.
  induction a as [|x a IH]; simpl; [reflexivity|].
  now rewrite IH, string_app_assoc.
Qed.

Lemma blog_loop_body (lines : list string) :
  forall v,
    body (fold_left blog_line lines v)
    = body v
      ++ flatten (map (fun line => line ++ NL)
                    (content_lines (String.eqb (current_section v) "content") lines)).
Proof.
  induction lines as [|line lines IH]; intros v.
  - simpl. now rewrite string_app_nil_r.
  - cbn [fold_left content_lines]. rewrite IH. unfold blog_line.
    destruct (startswith line "TITLE:"); [reflexivity|].
    destruct (startswith line "CONTENT:"); [reflexivity|].
    destruct (startswith line "TAGS:"); [reflexivity|].
    destruct (String.eqb (current_section v) "content") eqn:Hs; cbn [andb].
    + destruct (truthy (strip line)); cbn [body current_section].
      * rewrite Hs. unfold flatten. cbn [map fold_right].
        now rewrite !string_app_assoc.
      * now rewrite Hs.
    + now rewrite Hs.
Qed.

Lemma content_lines_kept (lines : list string) :
  forall in_content,
    Forall (fun line =>
              truthy (strip line) = true
              /\ startswith line "TITLE:" = false
              /\ startswith line "CONTENT:" = false
              /\ startswith line "TAGS:" = false)
           (content_lines in_content lines).
Proof.
  induction lines as [|line lines IH]; intros in_content; cbn [content_lines].
  - constructor.
  - destruct (startswith line "TITLE:") eqn:Ht; [apply IH|].
    destruct (startswith line "CONTENT:") eqn:Hc; [apply IH|].
    destruct (startswith line "TAGS:") eqn:Hg; [apply IH|].
    destruct in_content; cbn [andb]; [|apply IH].
    destruct (truthy (strip line)) eqn:Hn; [|apply IH].
    constructor; [auto | apply IH].
Qed.

Lemma content_lines_off (lines : list string) :
  (forall line, In line lines -> startswith line "CONTENT:" = false) ->
  content_lines false lines = [].
Proof.
  induction lines as [|line lines IH]; intros Hall; cbn [content_lines]; [reflexivity|].
  rewrite (Hall line (or_introl eq_refl)).
  assert (Hrest : content_lines false lines = []).
  { apply IH. intros l Hl. apply Hall. now right. }
  rewrite Hrest. cbn [andb].
  destruct (startswith line "TITLE:"); [reflexivity|].
  now destruct (startswith line "TAGS:").
Qed.

(** X1. The content of a blog record is the trimmed concatenation, each
    with a newline after it, of exactly the lines the loop keeps: those that
    are not blank, start with no marker, and come after a [CONTENT:] line
    with no [TITLE:] or [TAGS:] line in between.  Lines before the first
    [CONTENT:] line, the text on a [CONTENT:] line and blank lines never
    reach the content. *)
Theorem content_is_the_kept_lines :
  forall service clock topic target_audience word_count w reply,
    exact_range word_count ->
    service (sent w) (blog_request topic target_audience word_count) = Reply reply ->
    let kept := content_lines false (split reply NL) in
    exists post,
      fst (generate_blog_post service clock topic target_audience word_count w)
      = Returned post
      /\ PyDict.get post "content"
         = Some (VStr (strip (flatten (map (fun line => line ++ NL) kept))))
      /\ Forall (fun line =>
                   truthy (strip line) = true
                   /\ startswith line "TITLE:" = false
                   /\ startswith line "CONTENT:" = false
                   /\ startswith line "TAGS:" = false) kept.
Proof.
  intros service clock topic target_audience word_count w reply _ Hreply kept.
  exists (blog_record topic target_audience (blog_parse reply) (clock (ticks w))).
  rewrite (generate_blog_post_reply _ _ _ _ _ _ _ Hreply).
  split; [reflexivity|]. split; [|apply content_lines_kept].
  unfold blog_parse. cbn [blog_record PyDict.get]. simpl String.eqb. cbv iota.
  now rewrite blog_loop_body.
Qed.

Lemma content_is_the_kept_lines_witness :
  exists post,
    fst (generate_blog_post (replying repeated_reply) counting_clock
           "Test Topic" "general" 800 fresh) = Returned post
    /\ PyDict.get post "content" = Some (VStr ("alpha" ++ NL ++ "beta")).
Proof.
  destruct (content_is_the_kept_lines (replying repeated_reply) counting_clock
              "Test Topic" "general" 800%Z fresh repeated_reply eq_refl eq_refl)
    as (post & Hrun & Hcontent & _).
  exists post. split; [exact Hrun | exact Hcontent].
Defined.

(** X2. Each marker is optional on its own: a reply with no line starting
    with [TITLE:] gives the empty title, one with no line starting with
    [CONTENT:] gives the empty content, one with no line starting with
    [TAGS:] gives no tags, whatever the other lines are. *)
Theorem each_missing_marker_gives_its_default :
  forall service clock topic target_audience word_count w reply,
    exact_range word_count ->
    service (sent w) (blog_request topic target_audience word_count) = Reply reply ->
    exists post,
      fst (generate_blog_post service clock topic target_audience word_count w)
      = Returned post
      /\ PyDict.get post "status" = Some (VStr "success")
      /\ ((forall line, In line (split reply NL) -> startswith line "TITLE:" = false) ->
          PyDict.get post "title" = Some (VStr ""))
      /\ ((forall line, In line (split reply NL) -> startswith line "CONTENT:" = false) ->
          PyDict.get post "content" = Some (VStr ""))
      /\ ((forall line, In line (split reply NL) -> startswith line "TAGS:" = false) ->
          PyDict.get post "tags" = Some (VList [])).
Proof.
  intros service clock topic target_audience word_count w reply _ Hreply.
  exists (blog_record topic target_audience (blog_parse reply) (clock (ticks w))).
  rewrite (generate_blog_post_reply _ _ _ _ _ _ _ Hreply).
  split; [reflexivity|]. split; [reflexivity|].
  unfold blog_parse. split; [|split]; intros Hall.
  - cbn [blog_record PyDict.get]. simpl String.eqb. cbv iota.
    now rewrite (blog_loop_kept title "TITLE:" blog_line_title_kept _ _ Hall).
  - cbn [blog_record PyDict.get]. simpl String.eqb. cbv iota.
    rewrite blog_loop_body.
    change (String.eqb (current_section blog_init) "content") with false.
    now rewrite (content_lines_off _ Hall).
  - cbn [blog_record PyDict.get]. simpl String.eqb. cbv iota.
    now rewrite (blog_loop_kept tags "TAGS:" blog_line_tags_kept _ _ Hall).
Qed.

Lemma each_missing_marker_gives_its_default_witness :
  exists post,
    fst (generate_blog_post (replying "TITLE: Only a title") counting_clock
           "Test Topic" "general" 800 fresh) = Returned post
    /\ PyDict.get post "content" = Some (VStr "")
    /\ PyDict.get post "tags" = Some (VList []).
Proof.
  destruct (each_missing_marker_gives_its_default (replying "TITLE: Only a title")
              counting_clock "Test Topic" "general" 800%Z fresh
              "TITLE: Only a title" eq_refl eq_refl)
    as (post & Hrun & _ & _ & Hcontent & Htags).
  exists post. split; [exact Hrun|]. split.
  - apply Hcontent. intros line [<- | []]. reflexivity.
  - apply Htags. intros line [<- | []]. reflexivity.
Defined.

(** ** Tags *)

Lemma strip_is_trimmed (s : string) : trimmed (strip s) = true.
Proof. destruct (strip_decompose s) as (l & r & _ & _ & _ & H). exact H. Qed.

Lemma lstrip_of_clean (s : string) : begins_clean s = true -> lstrip s = s.
Proof.
  destruct s as [|c s]; [reflexivity|]. simpl. intros H.
  now destruct (isspace c).
Qed.

Lemma rstrip_of_clean (s : string) : ends_clean s = true -> rstrip s = s.
Proof.
  induction s as [|c s IH]; [reflexivity|]. intros H.
  destruct s as [|d s].
  - simpl in *. now destruct (isspace c).
  - change (ends_clean (String c (String d s))) with (ends_clean (String d s)) in H.
    change (rstrip (String c (String d s)))
      with (match rstrip (String d s) with
            | EmptyString => if isspace c then EmptyString else String c EmptyString
            | r => String c r
            end).
    now rewrite (IH H).
Qed.

Lemma strip_of_trimmed (s : string) : trimmed s = true -> strip s = s.
Proof.
  unfold trimmed, strip. intros H. apply andb_true_iff in H. destruct H as (Hb & He).
  rewrite (lstrip_of_clean _ Hb). now apply rstrip_of_clean.
Qed.

Lemma strip_idempotent (s : string) : strip (strip s) = strip s.
Proof. apply strip_of_trimmed, strip_is_trimmed. Qed.

Lemma mentions_lstrip (c : ascii) (s : string) :
  mentions c s = false -> mentions c (lstrip s) = false.
Proof.
  induction s as [|d s IH]; [reflexivity|]. intros H. simpl.
  destruct (isspace d); [|exact H].
  simpl in H. apply orb_false_iff in H. now apply IH.
Qed.

Lemma mentions_rstrip (c : ascii) (s : string) :
  mentions c s = false -> mentions c (rstrip s) = false.
Proof.
  induction s as [|d s IH]; [reflexivity|]. intros H.
  simpl in H. apply orb_false_iff in H. destruct H as (Hd & Hs).
  simpl. destruct (rstrip s) as [|e r] eqn:Hr.
  - destruct (isspace d); [reflexivity|]. simpl. now rewrite Hd.
  - cbn [mentions]. rewrite Hd. exact (IH Hs).
Qed.

Lemma mentions_strip (c : ascii) (s : string) :
  mentions c s = false -> mentions c (strip s) = false.
Proof. intros H. unfold strip. now apply mentions_rstrip, mentions_lstrip. Qed.

Lemma prefix_char (c d : ascii) (s : string) :
  String.prefix (String c "") (String d s) = Ascii.eqb c d.
Proof.
  cbn [String.prefix].
  destruct (ascii_dec c d) as [->|Hne].
  - rewrite Ascii.eqb_refl. now destruct s.
  - symmetry. now apply Ascii.eqb_neq.
Qed.

Lemma split_char_step (c d : ascii) (s : string) :
  split_from (String c "") 0 (String d s)
  = if Ascii.eqb c d
    then "" :: split_from (String c "") 0 s
    else match split_from (String c "") 0 s with
         | piece :: pieces => String d piece :: pieces
         | [] => [String d ""]
         end.
Proof.
  change (split_from (String c "") 0 (String d s))
    with (if String.prefix (String c "") (String d s)
          then "" :: split_from (String c "") 0 s
          else match split_from (String c "") 0 s with
               | piece :: pieces => String d piece :: pieces
               | [] => [String d ""]
               end).
  now rewrite prefix_char.
Qed.

Lemma split_char_pieces (c : ascii) (s : string) :
  Forall (fun piece => mentions c piece = false) (split_from (String c "") 0 s).
Proof.
  induction s as [|d s IH]; [repeat constructor|].
  rewrite split_char_step.
  destruct (Ascii.eqb c d) eqn:Hcd; [now constructor|].
  destruct (split_from (String c "") 0 s) as [|piece pieces].
  - repeat constructor. simpl. now rewrite Hcd.
  - inversion IH; subst. constructor; [|assumption].
    simpl. now rewrite Hcd.
Qed.

Lemma split_char_absent (c : ascii) (t : string) :
  mentions c t = false -> split_from (String c "") 0 t = [t].
Proof.
  induction t as [|d t IH]; [reflexivity|]. intros H.
  simpl in H. apply orb_false_iff in H. destruct H as (Hd & Ht).
  now rewrite split_char_step, Hd, (IH Ht).
Qed.

Lemma split_char_first (c : ascii) (t r : string) :
  mentions c t = false ->
  split_from (String c "") 0 (t ++ String c r) = t :: split_from (String c "") 0 r.
Proof.
  induction t as [|d t IH]; intros H.
  - cbn [String.append]. now rewrite split_char_step, Ascii.eqb_refl.
  - simpl in H. apply orb_false_iff in H. destruct H as (Hd & Ht).
    cbn [String.append]. now rewrite split_char_step, Hd, (IH Ht).
Qed.

Lemma tag_list_clean (raw : string) :
  Forall (fun tag => clean_tag tag = true) (tag_list raw).
Proof.
  apply Forall_forall. intros tag Hin. unfold tag_list in Hin.
  apply in_map_iff in Hin. destruct Hin as (piece & <- & Hin).
  apply filter_In in Hin. destruct Hin as (Hpiece & Htruthy).
  pose proof (split_char_pieces COMMA raw) as Hall.
  rewrite Forall_forall in Hall.
  unfold clean_tag. rewrite Htruthy, strip_is_trimmed.
  rewrite (mentions_strip _ _ (Hall piece Hpiece)). reflexivity.
Qed.

Lemma tag_list_first (t r : string) :
  mentions COMMA t = false ->
  tag_list (t ++ String COMMA r)
  = ((if truthy (strip t) then [strip t] else []) ++ tag_list r)%list.
Proof.
  intros H. unfold tag_list, split.
  change "," with (String COMMA "").
  rewrite (split_char_first COMMA t r H). cbn [filter].
  now destruct (truthy (strip t)).
Qed.

Lemma tag_list_after_space (x : string) : tag_list (String " " x) = tag_list x.
Proof.
  unfold tag_list, split. change "," with (String COMMA "").
  rewrite split_char_step. change (Ascii.eqb COMMA " ") with false. cbv iota.
  destruct (split_from (String COMMA "") 0 x) as [|piece pieces] eqn:Hx.
  - now apply split_from_not_nil in Hx.
  - cbn [filter]. change (strip (String " " piece)) with (strip piece).
    destruct (truthy (strip piece)); reflexivity.
Qed.

Lemma tag_list_of_clean (tags_out : list string) :
  Forall (fun tag => clean_tag tag = true) tags_out ->
  tag_list (join ", " tags_out) = tags_out.
Proof.
  induction tags_out as [|t rest IH]; intros Hall; [reflexivity|].
  inversion Hall as [|? ? Ht Hrest]; subst.
  unfold clean_tag in Ht. apply andb_true_iff in Ht. destruct Ht as (Ht & Hcomma).
  apply andb_true_iff in Ht. destruct Ht as (Htruthy & Htrim).
  apply negb_true_iff in Hcomma.
  destruct rest as [|t2 rest].
  - unfold join. cbn [String.concat]. unfold tag_list, split.
    change "," with (String COMMA "").
    rewrite (split_char_absent _ _ Hcomma). cbn [filter].
    rewrite (strip_of_trimmed _ Htrim), Htruthy. cbn [map].
    now rewrite (strip_of_trimmed _ Htrim).
  - unfold join in *.
    change (String.concat ", " (t :: t2 :: rest))
      with (t ++ String COMMA (String " " (String.concat ", " (t2 :: rest)))).
    rewrite (tag_list_first _ _ Hcomma), tag_list_after_space, (IH Hrest).
    now rewrite (strip_of_trimmed _ Htrim), Htruthy.
Qed.

(** X3. No tag of a blog record is empty, begins or ends with
    whitespace, or contains a comma. *)
Theorem returned_tags_are_clean :
  forall service clock topic target_audience word_count w reply,
    exact_range word_count ->
    service (sent w) (blog_request topic target_audience word_count) = Reply reply ->
    exists post tags_out,
      fst (generate_blog_post service clock topic target_audience word_count w)
      = Returned post
      /\ PyDict.get post "tags" = Some (VList (map VStr tags_out))
      /\ Forall (fun tag =>
                   truthy tag = true /\ trimmed tag = true
                   /\ mentions COMMA tag = false) tags_out.
Proof.
  intros service clock topic target_audience word_count w reply _ Hreply.
  exists (blog_record topic target_audience (blog_parse reply) (clock (ticks w))),
         (tag_list (tags (blog_parse reply))).
  rewrite (generate_blog_post_reply _ _ _ _ _ _ _ Hreply).
  split; [reflexivity|]. split; [reflexivity|].
  eapply Forall_impl; [|apply tag_list_clean].
  intros tag H. unfold clean_tag in H.
  apply andb_true_iff in H. destruct H as (H & Hcomma).
  apply andb_true_iff in H. destruct H as (Htruthy & Htrim).
  apply negb_true_iff in Hcomma. auto.
Qed.

Lemma returned_tags_are_clean_witness :
  exists post tags_out,
    fst (generate_blog_post (replying sample_reply) counting_clock
           "Test Topic" "general" 20 fresh) = Returned post
    /\ PyDict.get post "tags" = Some (VList (map VStr tags_out))
    /\ Forall (fun tag =>
                 truthy tag = true /\ trimmed tag = true
                 /\ mentions COMMA tag = false) tags_out.
Proof.
  exact (returned_tags_are_clean (replying sample_reply) counting_clock
           "Test Topic" "general" 20%Z fresh sample_reply eq_refl eq_refl).
Defined.

(** X4. Tags survive being written out and read back: joining the tags
    of any raw tags string with a comma and a space, as the demo prints
    them, and parsing the result gives the same tags. *)
Theorem tags_round_trip :
  forall raw, tag_list (join ", " (tag_list raw)) = tag_list raw.
Proof. intros raw. apply tag_list_of_clean, tag_list_clean. Qed.

(** ** Whitespace around the returned fields *)

Lemma blog_loop_title_trimmed (lines : list string) :
  forall v, trimmed (title v) = true ->
            trimmed (title (fold_left blog_line lines v)) = true.
Proof.
  induction lines as [|line lines IH]; intros v Hv; [exact Hv|].
  simpl. apply IH.
  destruct (startswith line "TITLE:") eqn:Ht.
  - rewrite (blog_line_title_set _ _ Ht). apply strip_is_trimmed.
  - now rewrite (blog_line_title_kept _ _ Ht).
Qed.

(** X5. The title and the content of a blog record never begin or end
    with whitespace. *)
Theorem returned_title_and_content_are_trimmed :
  forall service clock topic target_audience word_count w reply,
    exact_range word_count ->
    service (sent w) (blog_request topic target_audience word_count) = Reply reply ->
    exists post title_out content_out,
      fst (generate_blog_post service clock topic target_audience word_count w)
      = Returned post
      /\ PyDict.get post "title" = Some (VStr title_out)
      /\ PyDict.get post "content" = Some (VStr content_out)
      /\ trimmed title_out = true
      /\ trimmed content_out = true.
Proof.
  intros service clock topic target_audience word_count w reply _ Hreply.
  exists (blog_record topic target_audience (blog_parse reply) (clock (ticks w))),
         (title (blog_parse reply)), (strip (body (blog_parse reply))).
  rewrite (generate_blog_post_reply _ _ _ _ _ _ _ Hreply).
  split; [reflexivity|]. split; [reflexivity|]. split; [reflexivity|].
  split; [|apply strip_is_trimmed].
  unfold blog_parse. now apply blog_loop_title_trimmed.
Qed.

Lemma returned_title_and_content_are_trimmed_witness :
  exists post title_out content_out,
    fst (generate_blog_post (replying sample_reply) counting_clock
           "Test Topic" "general" 20 fresh) = Returned post
    /\ PyDict.get post "title" = Some (VStr title_out)
    /\ PyDict.get post "content" = Some (VStr content_out)
    /\ trimmed title_out = true
    /\ trimmed content_out = true.
Proof.
  exact (returned_title_and_content_are_trimmed (replying sample_reply)
           counting_clock "Test Topic" "general" 20%Z fresh sample_reply
           eq_refl eq_refl).
Defined.

(** ** What each operation does to the world *)

Section Footprint.

Variable service : list ChatRequest -> ChatRequest -> Outcome.
Variable clock : nat -> string.

Lemma calendar_loop_run (sections : list string) :
  forall ideas w,
    calendar_loop clock sections ideas w
    = (Returned
         (ideas
          ++ map (fun ts => idea_of_section (clock (fst ts)) (snd ts))
               (combine (stamps (ticks w) sections) (filter contributes sections)))%list,
       mkWorld (sent w) (ticks w + List.length (filter is_candidate sections))).
Proof.
  induction sections as [|section rest IH]; intros ideas w.
  - simpl. rewrite app_nil_r, Nat.add_0_r. now destruct w.
  - cbn [calendar_loop filter stamps]. rewrite contributes_unfold.
    destruct (is_candidate section); cbn [andb]; [|apply IH].
    unfold bind at 1. unfold now_isoformat at 1.
    rewrite idea_of_section_has_title.
    destruct (existsb title_line (split (strip section) NL)).
    + rewrite IH. cbn [sent ticks app combine map fst snd List.length].
      now rewrite <- app_assoc, Nat.add_succ_r.
    + rewrite IH. cbn [sent ticks app List.length].
      now rewrite Nat.add_succ_r.
Qed.

Lemma generate_content_calendar_world niche num_posts w :
  snd (generate_content_calendar service clock niche num_posts w)
  = mkWorld (sent w ++ [calendar_request niche num_posts])
      (match service (sent w) (calendar_request niche num_posts) with
       | Reply reply =>
           S (ticks w + List.length (filter is_candidate (split reply "---")))
       | Failure e => if isinstance_Exception e then S (ticks w) else ticks w
       end).
Proof.
  unfold generate_content_calendar, try_except, bind, create.
  destruct (service (sent w) (calendar_request niche num_posts)) as [reply|e].
  - now rewrite calendar_loop_run.
  - now destruct (isinstance_Exception e).
Qed.

Lemma generate_blog_post_world topic target_audience word_count w :
  snd (generate_blog_post service clock topic target_audience word_count w)
  = mkWorld (sent w ++ [blog_request topic target_audience word_count])
      (match service (sent w) (blog_request topic target_audience word_count) with
       | Reply _ => S (ticks w)
       | Failure e => if isinstance_Exception e then S (ticks w) else ticks w
       end).
Proof.
  unfold generate_blog_post, try_except, bind, create.
  destruct (service (sent w) (blog_request topic target_audience word_count))
    as [reply|e]; [reflexivity|].
  now destruct (isinstance_Exception e).
Qed.

Lemma analyze_sentiment_world text w :
  snd (analyze_sentiment service text w)
  = mkWorld (sent w ++ [sentiment_request text]) (ticks w).
Proof.
  unfold analyze_sentiment, try_except, bind, create.
  destruct (service (sent w) (sentiment_request text)) as [reply|e];
    [reflexivity|].
  now destruct (isinstance_Exception e).
Qed.

Lemma identify_key_themes_world feedback_list w :
  snd (identify_key_themes service feedback_list w)
  = mkWorld (sent w ++ [themes_request feedback_list]) (ticks w).
Proof.
  unfold identify_key_themes, try_except, bind, create.
  destruct (service (sent w) (themes_request feedback_list)) as [reply|e];
    [reflexivity|].
  now destruct (isinstance_Exception e).
Qed.

End Footprint.



(** ** The order of the calendar's clock reads *)

Lemma stamps_bounds (sections : list string) :
  forall tick,
    Forall (fun k => tick <= k < tick + List.length (filter is_candidate sections))
           (stamps tick sections).
Proof.
  induction sections as [|section rest IH]; intros tick; cbn [stamps filter].
  - constructor.
  - destruct (is_candidate section); [|apply IH].
    assert (Hrest : Forall (fun k => tick <= k
                                     < tick + List.length (section :: filter is_candidate rest))
                           (stamps (S tick) rest)).
    { eapply Forall_impl; [|apply IH]. simpl. intros k Hk. lia. }
    destruct (existsb title_line (split (strip section) NL)); [|exact Hrest].
    constructor; [simpl; lia | exact Hrest].
Qed.

Lemma stamps_sorted (sections : list string) :
  forall tick, StronglySorted lt (stamps tick sections).
Proof.
  induction sections as [|section rest IH]; intros tick; cbn [stamps].
  - constructor.
  - destruct (is_candidate section); [|apply IH].
    destruct (existsb title_line (split (strip section) NL)); [|apply IH].
    constructor; [apply IH|].
    eapply Forall_impl; [|apply stamps_bounds]. simpl. intros k Hk. lia.
Qed.

Lemma stamps_length (sections : list string) :
  forall tick,
    List.length (stamps tick sections) = List.length (filter contributes sections).
Proof.
  induction sections as [|section rest IH]; intros tick; cbn [stamps filter];
    [reflexivity|].
  rewrite contributes_unfold.
  destruct (is_candidate section); cbn [andb]; [|apply IH].
  destruct (existsb title_line (split (strip section) NL)); simpl; now rewrite IH.
Qed.

(** X7. Every idea the calendar keeps carries its own clock reading.  The
    readings are taken in the order of the segments, one per segment that
    contains [IDEA] and [Title:]; so the kept ideas hold strictly increasing
    reads of the clock, all of them earlier than the read that stamps the
    calendar record itself. *)
Theorem ideas_are_stamped_in_order :
  forall service clock niche num_posts w reply,
    service (sent w) (calendar_request niche num_posts) = Reply reply ->
    let sections := split reply "---" in
    let reads := stamps (ticks w) sections in
    let last_read := ticks w + List.length (filter is_candidate sections) in
    exists cal,
      fst (generate_content_calendar service clock niche num_posts w) = Returned cal
      /\ PyDict.get cal "ideas"
         = Some (VList (map VDict
              (map (fun ts => idea_of_section (clock (fst ts)) (snd ts))
                 (combine reads (filter contributes sections)))))
      /\ PyDict.get cal "generated_at" = Some (VStr (clock last_read))
      /\ List.length reads = List.length (filter contributes sections)
      /\ StronglySorted lt reads
      /\ Forall (fun k => ticks w <= k < last_read) reads.
Proof.
  intros service clock niche num_posts w reply Hreply sections reads last_read.
  eexists. split.
  - unfold generate_content_calendar, try_except, bind, create.
    rewrite Hreply, calendar_loop_run. unfold now_isoformat, ret.
    cbn [fst sent ticks app]. reflexivity.
  - split; [reflexivity|]. split; [reflexivity|].
    split; [apply stamps_length|]. split; [apply stamps_sorted | apply stamps_bounds].
Qed.

Lemma ideas_are_stamped_in_order_witness :
  exists cal,
    fst (generate_content_calendar (replying two_ideas_reply) counting_clock
           "Test Niche" 5 fresh) = Returned cal
    /\ PyDict.get cal "generated_at" = Some (VStr "t3")
    /\ stamps 0 (split two_ideas_reply "---") = [0; 2].
Proof.
  destruct (ideas_are_stamped_in_order (replying two_ideas_reply) counting_clock
              "Test Niche" 5%Z fresh two_ideas_reply eq_refl)
    as (cal & Hrun & _ & Hstamp & _).
  exists cal. split; [exact Hrun|]. split; [exact Hstamp | reflexivity].
Defined.

(** ** The keys of an idea *)

Lemma get_set_same (d : PyDict.t) (k : string) (v : PyValue) :
  PyDict.get (PyDict.set d k v) k = Some v.
Proof.
  induction d as [|[k0 x] d IH]; simpl.
  - now rewrite String.eqb_refl.
  - destruct (String.eqb k0 k) eqn:Hk; simpl; rewrite Hk; [reflexivity | exact IH].
Qed.

Lemma get_set_other (d : PyDict.t) (k k' : string) (v : PyValue) :
  String.eqb k k' = false ->
  PyDict.get (PyDict.set d k v) k' = PyDict.get d k'.
Proof.
  intros Hne. induction d as [|[k0 x] d IH]; simpl.
  - now rewrite Hne.
  - destruct (String.eqb k0 k) eqn:Hk; simpl.
    + apply String.eqb_eq in Hk. subst k0. now rewrite Hne.
    + destruct (String.eqb k0 k'); [reflexivity | exact IH].
Qed.

Lemma markers_exclusive (a b : ascii) (m1 m2 line : string) :
  a <> b ->
  startswith line (String a m1) = true ->
  startswith line (String b m2) = false.
Proof.
  unfold startswith. intros Hab.
  destruct line as [|c line]; cbn [String.prefix]; [discriminate|].
  destruct (ascii_dec a c), (ascii_dec b c); try discriminate; try reflexivity.
  congruence.
Qed.

Lemma idea_line_get (key marker : string) (idea : PyDict.t) (line : string) :
  In (key, marker) idea_fields ->
  PyDict.get (idea_line idea line) key
  = if startswith line marker
    then Some (VStr (strip (replace line marker "")))
    else PyDict.get idea key.
Proof.
  intros Hin. unfold idea_fields in Hin. simpl in Hin.
  destruct Hin as [H | [H | [H | [H | []]]]]; injection H as <- <-;
    unfold idea_line.
  - destruct (startswith line "Title:"); [apply get_set_same|].
    destruct (startswith line "Description:");
      [now rewrite get_set_other by reflexivity|].
    destruct (startswith line "Audience:");
      [now rewrite get_set_other by reflexivity|].
    destruct (startswith line "Level:");
      [now rewrite get_set_other by reflexivity | reflexivity].
  - destruct (startswith line "Title:") eqn:Ht.
    { rewrite (markers_exclusive "T" "D" _ _ line ltac:(discriminate) Ht).
      now rewrite get_set_other by reflexivity. }
    destruct (startswith line "Description:"); [apply get_set_same|].
    destruct (startswith line "Audience:");
      [now rewrite get_set_other by reflexivity|].
    destruct (startswith line "Level:");
      [now rewrite get_set_other by reflexivity | reflexivity].
  - destruct (startswith line "Title:") eqn:Ht.
    { rewrite (markers_exclusive "T" "A" _ _ line ltac:(discriminate) Ht).
      now rewrite get_set_other by reflexivity. }
    destruct (startswith line "Description:") eqn:Hd.
    { rewrite (markers_exclusive "D" "A" _ _ line ltac:(discriminate) Hd).
      now rewrite get_set_other by reflexivity. }
    destruct (startswith line "Audience:"); [apply get_set_same|].
    destruct (startswith line "Level:");
      [now rewrite get_set_other by reflexivity | reflexivity].
  - destruct (startswith line "Title:") eqn:Ht.
    { rewrite (markers_exclusive "T" "L" _ _ line ltac:(discriminate) Ht).
      now rewrite get_set_other by reflexivity. }
    destruct (startswith line "Description:") eqn:Hd.
    { rewrite (markers_exclusive "D" "L" _ _ line ltac:(discriminate) Hd).
      now rewrite get_set_other by reflexivity. }
    destruct (startswith line "Audience:") eqn:Ha.
    { rewrite (markers_exclusive "A" "L" _ _ line ltac:(discriminate) Ha).
      now rewrite get_set_other by reflexivity. }
    destruct (startswith line "Level:"); [apply get_set_same | reflexivity].
Qed.

Lemma idea_line_stamp (idea : PyDict.t) (line : string) :
  PyDict.get (idea_line idea line) "generated_at" = PyDict.get idea "generated_at".
Proof.
  unfold idea_line.
  destruct (startswith line "Title:");
    [now rewrite get_set_other by reflexivity|].
  destruct (startswith line "Description:");
    [now rewrite get_set_other by reflexivity|].
  destruct (startswith line "Audience:");
    [now rewrite get_set_other by reflexivity|].
  destruct (startswith line "Level:");
    [now rewrite get_set_other by reflexivity | reflexivity].
Qed.

Lemma idea_loop_stamp (lines : list string) :
  forall idea,
    PyDict.get (fold_left idea_line lines idea) "generated_at"
    = PyDict.get idea "generated_at".
Proof.
  induction lines as [|line lines IH]; intros idea; [reflexivity|].
  simpl. now rewrite IH, idea_line_stamp.
Qed.

Lemma idea_loop_untouched (key marker : string) (lines : list string) :
  In (key, marker) idea_fields ->
  forall idea,
    (forall line, In line lines -> startswith line marker = false) ->
    PyDict.get (fold_left idea_line lines idea) key = PyDict.get idea key.
Proof.
  intros Hin. induction lines as [|line lines IH]; intros idea Hall; [reflexivity|].
  simpl. rewrite IH.
  - now rewrite (idea_line_get _ _ _ _ Hin), (Hall line (or_introl eq_refl)).
  - intros l Hl. apply Hall. now right.
Qed.



(** ** Substrings *)

Lemma prefix_app (x b : string) : String.prefix x (x ++ b) = true.
Proof.
  induction x as [|c x IH]; [now destruct b|].
  cbn [String.append String.prefix].
  destruct (ascii_dec c c) as [_|Hne]; [exact IH | congruence].
Qed.

Lemma prefix_app_l (x a b : string) :
  String.prefix x a = true -> String.prefix x (a ++ b) = true.
Proof.
  intros H. rewrite (prefix_cut _ _ H), string_app_assoc. apply prefix_app.
Qed.

Lemma contains_unfold (x : string) (c : ascii) (s : string) :
  contains x (String c s) = String.prefix x (String c s) || contains x s.
Proof. reflexivity. Qed.

Lemma contains_here (x b : string) : contains x (x ++ b) = true.
Proof.
  destruct (x ++ b) as [|c s] eqn:E.
  - destruct x; [reflexivity | discriminate].
  - rewrite contains_unfold, <- E, prefix_app. reflexivity.
Qed.

Lemma contains_app_r (x a b : string) :
  contains x b = true -> contains x (a ++ b) = true.
Proof.
  intros H. induction a as [|c a IH]; [exact H|].
  cbn [String.append]. rewrite contains_unfold, IH. apply orb_true_r.
Qed.

Lemma contains_app_l (x a b : string) :
  contains x a = true -> contains x (a ++ b) = true.
Proof.
  induction a as [|c a IH]; intros H.
  - destruct x; [|discriminate]. now destruct b.
  - cbn [String.append]. rewrite contains_unfold in *.
    apply orb_true_iff in H. destruct H as [H | H].
    + change (String c (a ++ b)) with (String c a ++ b).
      now rewrite (prefix_app_l _ _ b H).
    + rewrite (IH H). apply orb_true_r.
Qed.

Lemma contains_concat (x sep : string) (pieces : list string) :
  forall piece,
    In piece pieces -> contains x piece = true ->
    contains x (String.concat sep pieces) = true.
Proof.
  induction pieces as [|p pieces IH]; intros piece Hin Hx; [destruct Hin|].
  destruct pieces as [|q pieces].
  - destruct Hin as [<- | []]. exact Hx.
  - change (String.concat sep (p :: q :: pieces))
      with (p ++ sep ++ String.concat sep (q :: pieces)).
    destruct Hin as [<- | Hin].
    + now apply contains_app_l.
    + apply contains_app_r, contains_app_r. now apply (IH piece).
Qed.

(** A piece of a split string holds nothing the string does not hold. *)
Lemma split_piece_contains (x sep s piece : string) :
  sep <> "" ->
  In piece (split s sep) -> contains x piece = true -> contains x s = true.
Proof.
  intros Hsep Hin Hx. rewrite <- (join_split sep Hsep s).
  unfold join. now apply (contains_concat x sep _ piece).
Qed.

Lemma no_candidate_without (x : string) (reply : string) :
  contains x reply = false ->
  (forall section, contributes section = true -> contains x section = true) ->
  filter contributes (split reply "---") = [].
Proof.
  intros Habsent Hneeds.
  destruct (filter contributes (split reply "---")) as [|section rest] eqn:E;
    [reflexivity|].
  assert (Hin : In section (filter contributes (split reply "---")))
    by (rewrite E; now left).
  apply filter_In in Hin. destruct Hin as (Hin & Hc).
  rewrite (split_piece_contains x "---" reply section ltac:(discriminate) Hin
             (Hneeds _ Hc)) in Habsent.
  discriminate.
Qed.

(** X9. A calendar reply that nowhere contains [IDEA], or nowhere
    contains [Title:] (the empty reply is one), is not an error: the result
    is a success record with no ideas and [total_ideas] zero. *)
Theorem reply_without_markers_gives_empty_calendar :
  forall service clock niche num_posts w reply,
    service (sent w) (calendar_request niche num_posts) = Reply reply ->
    contains "IDEA" reply = false \/ contains "Title:" reply = false ->
    exists generated_at,
      fst (generate_content_calendar service clock niche num_posts w)
      = Returned [ ("niche", VStr niche);
                   ("total_ideas", VInt 0);
                   ("ideas", VList []);
                   ("generated_at", VStr generated_at);
                   ("status", VStr "success") ].
Proof.
  intros service clock niche num_posts w reply Hreply Habsent.
  destruct (generate_content_calendar_reply service clock niche num_posts w reply Hreply)
    as (ideas & generated_at & Hrun & Hall).
  assert (Hnone : filter contributes (split reply "---") = []).
  { destruct Habsent as [H | H].
    - apply (no_candidate_without "IDEA" reply H).
      intros section Hc. unfold contributes in Hc.
      apply andb_true_iff in Hc. destruct Hc as (Hc & _).
      apply andb_true_iff in Hc. tauto.
    - apply (no_candidate_without "Title:" reply H).
      intros section Hc. unfold contributes in Hc.
      apply andb_true_iff in Hc. destruct Hc as (Hc & _).
      apply andb_true_iff in Hc. tauto. }
  rewrite Hnone in Hall. inversion Hall; subst.
  exists generated_at. exact Hrun.
Qed.

Lemma reply_without_markers_gives_empty_calendar_witness :
  exists generated_at,
    fst (generate_content_calendar (replying "") counting_clock "Test Niche" 30 fresh)
    = Returned [ ("niche", VStr "Test Niche");
                 ("total_ideas", VInt 0);
                 ("ideas", VList []);
                 ("generated_at", VStr generated_at);
                 ("status", VStr "success") ].
Proof.
  apply (reply_without_markers_gives_empty_calendar (replying "") counting_clock
           "Test Niche" 30%Z fresh "" eq_refl).
  left. reflexivity.
Defined.

(** ** What the prompts carry *)

Lemma contains_refl (x : string) : contains x x = true.
Proof. rewrite <- (string_app_nil_r x) at 2. apply contains_here. Qed.

Lemma contains_tail (a x s : string) :
  contains (a ++ x) s = true -> contains x s = true.
Proof.
  induction s as [|c s IH]; intros H.
  - destruct a; [exact H | discriminate].
  - rewrite contains_unfold in H. apply orb_true_iff in H. destruct H as [H | H].
    + rewrite (prefix_cut _ _ H), string_app_assoc.
      apply contains_app_r, contains_here.
    + rewrite contains_unfold, (IH H). apply orb_true_r.
Qed.

Lemma contains_bullet (sep : string) (entries : list string) :
  forall entry,
    In entry entries ->
    contains (sep ++ entry) (sep ++ String.concat sep entries) = true.
Proof.
  induction entries as [|e entries IH]; intros entry Hin; [destruct Hin|].
  destruct entries as [|e2 entries].
  - destruct Hin as [<- | []]. apply contains_refl.
  - change (String.concat sep (e :: e2 :: entries))
      with (e ++ sep ++ String.concat sep (e2 :: entries)).
    destruct Hin as [<- | Hin].
    + rewrite <- string_app_assoc. apply contains_here.
    + apply contains_app_r, contains_app_r. now apply IH.
Qed.

(** X10. The user message of a blog request carries the topic, the
    audience and the target word count in decimal, and names the three
    markers the parser looks for; that of a calendar request carries the
    niche and the number of posts in decimal, and names the segment
    delimiter and the prefixes the calendar parser looks for.  Both requests
    consist of a system message followed by the user message. *)
Theorem generator_prompts_carry_their_parameters :
  (forall topic target_audience word_count,
      exists system user,
        messages (blog_request topic target_audience word_count)
        = [mkMessage "system" system; mkMessage "user" user]
        /\ contains topic user = true
        /\ contains target_audience user = true
        /\ contains (str_of_int word_count) user = true
        /\ contains "TITLE:" user = true
        /\ contains "CONTENT:" user = true
        /\ contains "TAGS:" user = true)
  /\ (forall niche num_posts,
      exists system user,
        messages (calendar_request niche num_posts)
        = [mkMessage "system" system; mkMessage "user" user]
        /\ contains niche user = true
        /\ contains (str_of_int num_posts) user = true
        /\ contains "IDEA" user = true
        /\ contains "Title:" user = true
        /\ contains "Description:" user = true
        /\ contains "Audience:" user = true
        /\ contains "Level:" user = true
        /\ contains "---" user = true).
Proof.
  split.
  - intros topic target_audience word_count.
    eexists. exists (blog_prompt topic target_audience word_count).
    split; [reflexivity|]. unfold blog_prompt, join.
    repeat split.
    + eapply contains_concat; [right; left; reflexivity|].
      apply contains_app_r, contains_app_r, contains_here.
    + eapply contains_concat; [right; left; reflexivity|].
      apply contains_app_r, contains_app_r, contains_app_r, contains_app_r,
        contains_here.
    + eapply contains_concat; [do 4 right; left; reflexivity|].
      apply contains_app_r, contains_app_r, contains_here.
    + eapply contains_concat; [do 12 right; left; reflexivity|]. reflexivity.
    + eapply contains_concat; [do 14 right; left; reflexivity|]. reflexivity.
    + eapply contains_concat; [do 17 right; left; reflexivity|]. reflexivity.
  - intros niche num_posts.
    eexists. exists (calendar_prompt niche num_posts).
    split; [reflexivity|]. unfold calendar_prompt, join.
    repeat split.
    + eapply contains_concat; [right; left; reflexivity|].
      apply contains_app_r, contains_app_r, contains_app_r, contains_app_r,
        contains_here.
    + eapply contains_concat; [right; left; reflexivity|].
      apply contains_app_r, contains_app_r, contains_here.
    + eapply contains_concat; [do 10 right; left; reflexivity|]. reflexivity.
    + eapply contains_concat; [do 11 right; left; reflexivity|]. reflexivity.
    + eapply contains_concat; [do 12 right; left; reflexivity|]. reflexivity.
    + eapply contains_concat; [do 13 right; left; reflexivity|]. reflexivity.
    + eapply contains_concat; [do 14 right; left; reflexivity|]. reflexivity.
    + eapply contains_concat; [do 15 right; left; reflexivity|]. reflexivity.
Qed.

(** The decimal text of the parameters of the repository's tests. *)
Lemma str_of_int_samples :
  str_of_int 1000 = "1000" /\ str_of_int 20 = "20" /\ str_of_int 0 = "0".
Proof. repeat split. Qed.

(** X11. The user message of a sentiment request carries the text
    between double quotes; that of a themes request carries every feedback
    entry as a bullet, a dash and a space before it, and for an empty list
    it still ends with one lone bullet. *)
Theorem analyzer_prompts_carry_their_input :
  (forall text,
      exists system user,
        messages (sentiment_request text)
        = [mkMessage "system" system; mkMessage "user" user]
        /\ contains (DQUOTE ++ text ++ DQUOTE) user = true)
  /\ (forall feedback_list,
      exists system user,
        messages (themes_request feedback_list)
        = [mkMessage "system" system; mkMessage "user" user]
        /\ (forall entry, In entry feedback_list ->
                          contains ("- " ++ entry) user = true)
        /\ (feedback_list = [] ->
            exists head, user = head ++ "Feedback:" ++ NL ++ "- ")).
Proof.
  split.
  - intros text. eexists. eexists. split; [reflexivity|].
    apply contains_app_r, contains_app_r, contains_app_r, contains_app_r,
      contains_refl.
  - intros feedback_list. eexists. eexists. split; [reflexivity|]. split.
    + intros entry Hin.
      apply contains_app_r, contains_app_r, contains_app_r, contains_app_r.
      apply (contains_tail NL).
      pose proof (contains_bullet (NL ++ "- ") feedback_list entry Hin) as H.
      rewrite !string_app_assoc in H. exact H.
    + intros ->.
      exists ("Identify the key themes from the following list of user feedback. Group similar feedback together and provide a summary of the main topics."
              ++ NL ++ NL).
      reflexivity.
Qed.

Lemma analyzer_prompts_carry_their_input_witness :
  exists system user,
    messages (themes_request ["Can't log in."; "I was double charged."])
    = [mkMessage "system" system; mkMessage "user" user]
    /\ contains "- I was double charged." user = true.
Proof.
  destruct analyzer_prompts_carry_their_input as (_ & Hthemes).
  destruct (Hthemes ["Can't log in."; "I was double charged."])
    as (system & user & Hmsg & Hall & _).
  exists system, user. split; [exact Hmsg|].
  apply (Hall "I was double charged."). right. left. reflexivity.
Defined.

(** ** Construction *)

Lemma analyzer_init_same : analyzer_init = generator_init.
Proof. reflexivity. Qed.

(** X12. How the constructors settle the key.  An explicit non-empty key
    is kept and written to [openai.api_key], whatever the environment says.
    With no key, or the empty string, the object takes the value of
    [OPENAI_API_KEY].  If that leaves nothing (the variable is unset or
    empty), the object is still built, and [openai.api_key] is left as it
    was: it is not cleared.  The environment itself is never changed. *)
Theorem constructor_settles_the_key :
  forall init api_key p,
    init = generator_init \/ init = analyzer_init ->
    let self_api_key := fst (init api_key p) in
    let p' := snd (init api_key p) in
    environ p' = environ p
    /\ (truthy_opt api_key = true ->
        self_api_key = api_key /\ openai_api_key p' = api_key)
    /\ (truthy_opt api_key = false ->
        self_api_key = getenv (environ p) "OPENAI_API_KEY")
    /\ (truthy_opt self_api_key = true -> openai_api_key p' = self_api_key)
    /\ (truthy_opt self_api_key = false -> p' = p).
Proof.
  intros init api_key p Hinit.
  assert (Hg : init = generator_init)
    by (destruct Hinit as [-> | ->]; [reflexivity | apply analyzer_init_same]).
  subst init. unfold generator_init. cbn zeta.
  destruct api_key as [s|]; cbn [py_or truthy_opt].
  - destruct (truthy s) eqn:Hs; cbn [truthy_opt].
    + rewrite Hs. cbn [fst snd environ openai_api_key truthy_opt].
      repeat split; intros; try congruence.
    + destruct (truthy_opt (getenv (environ p) "OPENAI_API_KEY")) eqn:He;
        cbn [fst snd environ openai_api_key];
        repeat split; intros; try congruence; now destruct p.
  - destruct (truthy_opt (getenv (environ p) "OPENAI_API_KEY")) eqn:He;
      cbn [fst snd environ openai_api_key];
      repeat split; intros; try congruence; now destruct p.
Qed.

Lemma constructor_settles_the_key_witness :
  fst (generator_init (Some "test-key-123") (mkProcess [] None)) = Some "test-key-123"
  /\ fst (generator_init None
            (mkProcess [("OPENAI_API_KEY", "env-key-456")] None))
     = Some "env-key-456"
  /\ snd (analyzer_init (Some "") (mkProcess [] (Some "earlier")))
     = mkProcess [] (Some "earlier").
Proof.
  destruct (constructor_settles_the_key generator_init (Some "test-key-123")
              (mkProcess [] None) (or_introl eq_refl)) as (_ & Hkey & _).
  destruct (constructor_settles_the_key generator_init None
              (mkProcess [("OPENAI_API_KEY", "env-key-456")] None)
              (or_introl eq_refl)) as (_ & _ & Henv & _).
  destruct (constructor_settles_the_key analyzer_init (Some "")
              (mkProcess [] (Some "earlier")) (or_intror eq_refl))
    as (_ & _ & _ & _ & Hnone).
  split; [|split].
  - exact (proj1 (Hkey eq_refl)).
  - exact (Henv eq_refl).
  - exact (Hnone eq_refl).
Defined.

(** X13. The key in use is shared by all objects.  Building an analyzer
    with a key after a generator with another leaves the generator's own
    [api_key] as it was but points [openai.api_key] at the analyzer's key;
    building an object without any key afterwards gives it no key of its own
    and leaves the shared one in place. *)
Theorem later_constructor_takes_over_the_shared_key :
  forall key1 key2 p,
    truthy key1 = true ->
    truthy key2 = true ->
    let g := generator_init (Some key1) p in
    let a := analyzer_init (Some key2) (snd g) in
    fst g = Some key1
    /\ fst a = Some key2
    /\ openai_api_key (snd g) = Some key1
    /\ openai_api_key (snd a) = Some key2
    /\ (truthy_opt (getenv (environ p) "OPENAI_API_KEY") = false ->
        forall none, truthy_opt none = false ->
          truthy_opt (fst (generator_init none (snd a))) = false
          /\ openai_api_key (snd (generator_init none (snd a))) = Some key2).
Proof.
  intros key1 key2 p H1 H2 g a. subst g a.
  unfold analyzer_init, generator_init. cbn [py_or truthy_opt].
  rewrite H1. cbn [truthy_opt fst snd environ]. rewrite H1.
  cbn [fst snd environ openai_api_key]. rewrite H2. cbn [truthy_opt]. rewrite H2.
  cbn [fst snd environ openai_api_key].
  split; [reflexivity|]. split; [reflexivity|].
  split; [reflexivity|]. split; [reflexivity|].
  intros Henv none Hnone.
  assert (Hself : py_or none (getenv (environ p) "OPENAI_API_KEY")
                  = getenv (environ p) "OPENAI_API_KEY").
  { destruct none as [s|]; cbn [py_or truthy_opt] in *; [|reflexivity].
    now rewrite Hnone. }
  rewrite Hself, Henv. now split.
Qed.

Lemma later_constructor_takes_over_the_shared_key_witness :
  fst (generator_init (Some "first") (mkProcess [] None)) = Some "first"
  /\ openai_api_key
       (snd (analyzer_init (Some "second")
               (snd (generator_init (Some "first") (mkProcess [] None)))))
     = Some "second".
Proof.
  destruct (later_constructor_takes_over_the_shared_key "first" "second"
              (mkProcess [] None) eq_refl eq_refl) as (Hg & _ & _ & Ha & _).
  split; [exact Hg | exact Ha].
Defined.

(** ** The test double *)

(** X14. With the repository's mock module in place of the service and
    nothing patched, no operation gets a reply: the generator operations
    return the error record carrying the mock's message, the analyzer
    operations the error string carrying it. *)
Theorem unpatched_mock_reports_itself :
  forall clock w,
    (forall topic target_audience word_count,
        exact_range word_count ->
        fst (generate_blog_post mock_create clock topic target_audience word_count w)
        = Returned [ ("status", VStr "error");
                     ("error", VStr "OpenAI API should be mocked in tests");
                     ("generated_at", VStr (clock (ticks w))) ])
    /\ (forall niche num_posts,
        fst (generate_content_calendar mock_create clock niche num_posts w)
        = Returned [ ("status", VStr "error");
                     ("error", VStr "OpenAI API should be mocked in tests");
                     ("generated_at", VStr (clock (ticks w))) ])
    /\ (forall text,
        fst (analyze_sentiment mock_create text w)
        = Returned "Error: OpenAI API should be mocked in tests")
    /\ (forall feedback_list,
        fst (identify_key_themes mock_create feedback_list w)
        = Returned "Error: OpenAI API should be mocked in tests").
Proof.
  intros clock w. split; [|split; [|split]].
  - intros topic target_audience word_count _.
    now rewrite (generate_blog_post_failure mock_create clock _ _ _ _ _
                   eq_refl eq_refl).
  - intros niche num_posts.
    now rewrite (generate_content_calendar_failure mock_create clock _ _ _ _
                   eq_refl eq_refl).
  - intros text. now rewrite analyze_sentiment_run.
  - intros feedback_list. now rewrite identify_key_themes_run.
Qed.

Lemma unpatched_mock_reports_itself_witness :
  fst (generate_blog_post mock_create counting_clock "Test" "general" 800 fresh)
  = Returned [ ("status", VStr "error");
               ("error", VStr "OpenAI API should be mocked in tests");
               ("generated_at", VStr "t0") ].
Proof.
  destruct (unpatched_mock_reports_itself counting_clock fresh) as (Hblog & _).
  exact (Hblog "Test" "general" 800%Z eq_refl).
Defined.

(** ** Errors reported in band *)

Lemma ends_clean_app (a m : string) :
  truthy m = true -> ends_clean (a ++ m) = ends_clean m.
Proof.
  intros Hm. induction a as [|c a IH]; [reflexivity|].
  cbn [String.append].
  destruct (a ++ m) as [|d r] eqn:E.
  - destruct a; [cbn in E; subst m |]; discriminate.
  - exact IH.
Qed.



(** ** The two shapes of a result *)



(** ** The size asked of the service *)

(** X17. For targets in the exact range, the size a blog request asks
    for leaves room above the target: for a positive target it is at least
    the target and at most one and a half times it, and a larger target in
    the range never gets a smaller size.  The target is not validated: zero
    asks for zero, and a negative target asks for a negative size. *)
Theorem requested_size_bounds :
  forall topic target_audience word_count,
    exact_range word_count ->
    let size := max_tokens (blog_request topic target_audience word_count) in
    ((0 < word_count)%Z ->
     (word_count <= size)%Z /\ (2 * size <= 3 * word_count)%Z
     /\ (3 * word_count < 2 * size + 2)%Z)
    /\ (word_count = 0%Z -> size = 0%Z)
    /\ ((word_count < 0)%Z -> (size < 0)%Z /\ (size <= word_count)%Z)
    /\ (forall larger,
          exact_range larger ->
          (word_count <= larger)%Z ->
          (size <= max_tokens (blog_request topic target_audience larger))%Z).
Proof.
  intros topic target_audience word_count _ size. subst size.
  cbn [max_tokens blog_request].
  rewrite estimated_tokens_quot.
  split; [|split; [|split]].
  - intros H. Z.to_euclidean_division_equations. lia.
  - intros ->. reflexivity.
  - intros H. Z.to_euclidean_division_equations. lia.
  - intros larger _ H. rewrite estimated_tokens_quot.
    Z.to_euclidean_division_equations. lia.
Qed.

Lemma requested_size_bounds_witness :
  (20 <= max_tokens (blog_request "Test Topic" "general" 20))%Z
  /\ (max_tokens (blog_request "Test Topic" "general" (-1)) < 0)%Z
  /\ (max_tokens (blog_request "Test Topic" "general" 20)
      <= max_tokens (blog_request "Test Topic" "general" 800))%Z.
Proof.
  destruct (requested_size_bounds "Test Topic" "general" 20%Z eq_refl)
    as (Hpos & _ & _ & Hmono).
  destruct (requested_size_bounds "Test Topic" "general" (-1)%Z eq_refl)
    as (_ & _ & Hneg & _).
  split; [|split].
  - exact (proj1 (Hpos eq_refl)).
  - exact (proj1 (Hneg eq_refl)).
  - apply (Hmono 800%Z); [reflexivity | discriminate].
Defined.

(** ** The repository's fixtures *)

(** What the operations return on the replies of the repository's tests:
    the values those tests look for. *)
Lemma fixture_blog_reply_parsed :
  fst (generate_blog_post (replying fixture_blog_reply) counting_clock
         "Passive Income" "entrepreneurs" 800 fresh)
  = Returned
      [ ("title", VStr "10 Proven Passive Income Strategies");
        ("content",
         VStr (join NL
                 [ "In today's digital age, creating passive income streams has become more accessible than ever.";
                   "## Understanding Passive Income";
                   "Passive income is money earned with minimal active effort.";
                   "## Top Strategies";
                   "1. Dividend investing";
                   "2. Real estate";
                   "3. Digital products";
                   "## Conclusion";
                   "Start small and grow your passive income over time." ]));
        ("tags",
         VList [ VStr "passive income"; VStr "investing"; VStr "entrepreneurship";
                 VStr "financial freedom"; VStr "side hustle" ]);
        ("topic", VStr "Passive Income");
        ("target_audience", VStr "entrepreneurs");
        ("word_count", VInt 55);
        ("generated_at", VStr "t0");
        ("status", VStr "success") ].
Proof. vm_compute. reflexivity. Qed.

Lemma fixture_calendar_reply_parsed :
  fst (generate_content_calendar (replying fixture_calendar_reply) counting_clock
         "Test Niche" 30 fresh)
  = Returned
      [ ("niche", VStr "Test Niche");
        ("total_ideas", VInt 2);
        ("ideas",
         VList
           [ VDict [ ("generated_at", VStr "t0");
                     ("title", VStr "Getting Started with AI Tools");
                     ("description",
                      VStr "Learn how to leverage AI tools for productivity. This guide covers the basics.");
                     ("audience", VStr "Business professionals");
                     ("level", VStr "Beginner") ];
             VDict [ ("generated_at", VStr "t1");
                     ("title", VStr "Advanced Machine Learning Techniques");
                     ("description",
                      VStr "Deep dive into ML algorithms. Explore neural networks and optimization.");
                     ("audience", VStr "Data scientists");
                     ("level", VStr "Advanced") ] ]);
        ("generated_at", VStr "t2");
        ("status", VStr "success") ].
Proof. vm_compute. reflexivity. Qed.

(** ** The analyzer's demo *)

Section Demo.

Variable service : list ChatRequest -> ChatRequest -> Outcome.
Hypothesis only_Exception : raises_only_Exception service.

Lemma analyze_sentiment_returns text w :
  exists sentiment,
    analyze_sentiment service text w
    = (Returned sentiment, mkWorld (sent w ++ [sentiment_request text]) (ticks w)).
Proof.
  unfold analyze_sentiment, try_except, bind, create.
  destruct (service (sent w) (sentiment_request text)) as [reply|e] eqn:H.
  - eexists; reflexivity.
  - rewrite (only_Exception _ _ _ H). eexists; reflexivity.
Qed.

Lemma identify_key_themes_returns feedback_list w :
  exists themes,
    identify_key_themes service feedback_list w
    = (Returned themes,
       mkWorld (sent w ++ [themes_request feedback_list]) (ticks w)).
Proof.
  unfold identify_key_themes, try_except, bind, create.
  destruct (service (sent w) (themes_request feedback_list)) as [reply|e] eqn:H.
  - eexists; reflexivity.
  - rewrite (only_Exception _ _ _ H). eexists; reflexivity.
Qed.

Lemma sentiment_loop_run (data : list string) :
  forall printed w,
    exists lines,
      FeedbackDemo.sentiment_loop service data printed w
      = (Returned (printed ++ lines)%list,
         mkWorld (sent w ++ map sentiment_request data) (ticks w))
      /\ List.length lines = List.length data.
Proof.
  induction data as [|feedback rest IH]; intros printed w.
  - exists []. simpl. rewrite !app_nil_r. now destruct w.
  - cbn [FeedbackDemo.sentiment_loop]. unfold bind at 1.
    destruct (analyze_sentiment_returns feedback w) as (sentiment & ->).
    match goal with
    | |- context [FeedbackDemo.sentiment_loop _ _ ?p ?x] =>
        destruct (IH p x) as (lines & Hrun & Hlen)
    end.
    rewrite Hrun. eexists (_ :: lines).
    cbn [sent ticks map List.length]. rewrite <- !app_assoc, Hlen.
    split; reflexivity.
Qed.

End Demo.



(** The demo on its own data against a service that always raises. *)
Lemma main_against_failing_service :
  fst (FeedbackDemo.main (failing "no key") fresh)
  = Returned
      [ "--- Sentiment Analysis ---";
        "'The app is amazing! So easy to use and very intuitive.' -> Sentiment: Error: no key";
        "'I'm having trouble with the login. It keeps crashing on my device.' -> Sentiment: Error: no key";
        "'The new update is a bit confusing. I can't find the settings menu anymore.' -> Sentiment: Error: no key";
        "'Billing is incorrect. I was charged twice for my subscription.' -> Sentiment: Error: no key";
        "'Love the new features, especially the dark mode. Keep up the great work!' -> Sentiment: Error: no key";
        "'Customer support was very helpful and resolved my issue quickly.' -> Sentiment: Error: no key";
        NL ++ "--- Key Theme Identification ---";
        "Error: no key" ].
Proof. vm_compute. reflexivity. Qed.
